(** * DetectaBias: the response parser, the report renderer and the page script

    A shallow embedding of [detectabias.py].  The program is a Streamlit
    page: the script is run from top to bottom on every interaction, the
    session state is carried from one run to the next, and every output is a
    call to the UI library.  A run is a function from the session state and
    what the browser and the outside services deliver during it to the next
    session state and the list of calls made.

    Conventions.
    - A Python [str] is a [string]; a character is one code point in
      U+0000..U+00FF.
    - The fixed texts of the page (headings, messages, the print style sheet)
      are one constructor each of [output]; values computed by the program are
      carried as arguments.
    - The libraries behind the program ([json.loads], [str.capitalize], the
      prompt template, the PDF reader and the model endpoint) are not part of
      the repository: the first three are variables of the section
      [Program], the last two are part of a run's input. *)

From Stdlib Require Import ZArith Ascii String List Bool Lia SpecFloat.
From stdpp Require Import base option list gmap strings.

Import ListNotations.
Local Open Scope string_scope.
Local Open Scope list_scope.

(** ** Python strings *)

Module Str.

(** [str.isspace] on one character, for the code points below 256:
    TAB..CR, FS..US, SPACE, NEL and NBSP. *)
Definition isspace (c : ascii) : bool :=
  let n := nat_of_ascii c in
  (((9 <=? n) && (n <=? 13)) || ((28 <=? n) && (n <=? 32))
   || (n =? 133) || (n =? 160))%nat.

(** [s.lstrip()] *)
Fixpoint lstrip (s : string) : string :=
  match s with
  | EmptyString => EmptyString
  | String c s' => if isspace c then lstrip s' else s
  end.

(** [s.rstrip()] *)
Fixpoint rstrip (s : string) : string :=
  match s with
  | EmptyString => EmptyString
  | String c s' =>
      match rstrip s' with
      | EmptyString => if isspace c then EmptyString else String c EmptyString
      | r => String c r
      end
  end.

(** [s.strip()] *)
Definition strip (s : string) : string := rstrip (lstrip s).

(** [s.split(sep)] for a separator of one character: one more piece than
    there are separators, empty pieces kept. *)
Fixpoint split (sep : ascii) (s : string) : list string :=
  match s with
  | EmptyString => [EmptyString]
  | String c s' =>
      if Ascii.eqb c sep then EmptyString :: split sep s'
      else match split sep s' with
           | piece :: pieces => String c piece :: pieces
           | [] => [String c EmptyString]
           end
  end.

(** [sep.join(pieces)] *)
Fixpoint join (sep : ascii) (pieces : list string) : string :=
  match pieces with
  | [] => EmptyString
  | [p] => p
  | p :: ps => p +:+ String sep (join sep ps)
  end.

(** [c in s] for a character [c] *)
Fixpoint contains (c : ascii) (s : string) : bool :=
  match s with
  | EmptyString => false
  | String d s' => Ascii.eqb d c || contains c s'
  end.

(** every character of [s] is white space *)
Fixpoint blank (s : string) : bool :=
  match s with
  | EmptyString => true
  | String c s' => isspace c && blank s'
  end.

(** the characters of [s], as [for ch in s] yields them *)
Fixpoint chars (s : string) : list string :=
  match s with
  | EmptyString => []
  | String c s' => String c EmptyString :: chars s'
  end.

End Str.

(** ** The regular expression of the fallback stage *)

Module Re.

(** The fragment of [re] the program uses: literal characters, the dot,
    and the greedy star of one of them. *)
Inductive atom : Type :=
| Chr (c : ascii)
| Dot.

Inductive item : Type :=
| One (a : atom)
| Many (a : atom).

Definition pattern : Type := list item.

Record flags : Type := { DOTALL : bool }.

Definition newline : ascii := "010"%char.

Definition accepts (f : flags) (a : atom) (c : ascii) : bool :=
  match a with
  | Chr d => Ascii.eqb c d
  | Dot => DOTALL f || negb (Ascii.eqb c newline)
  end.

(** The backtracking matcher anchored at the start of [s]: the matched
    text.  A star takes as many characters as it can and gives them back
    one at a time until the rest of the pattern matches. *)
Fixpoint match_here (f : flags) (p : pattern) (s : string) : option string :=
  match p with
  | [] => Some EmptyString
  | One a :: p' =>
      match s with
      | String c s' =>
          if accepts f a c then String c <$> match_here f p' s' else None
      | EmptyString => None
      end
  | Many a :: p' =>
      (fix star (t : string) : option string :=
         match t with
         | String c t' =>
             if accepts f a c then
               match star t' with
               | Some m => Some (String c m)
               | None => match_here f p' t
               end
             else match_here f p' t
         | EmptyString => match_here f p' t
         end) s
  end.

(** [re.search(p, s, flags)]: the match at the leftmost position that has
    one; [match.group(0)] is what is returned. *)
Fixpoint search (f : flags) (p : pattern) (s : string) : option string :=
  match match_here f p s with
  | Some m => Some m
  | None =>
      match s with
      | EmptyString => None
      | String _ s' => search f p s'
      end
  end.

End Re.

(** [r'\{.*\}'] *)
Definition brace_pattern : Re.pattern :=
  [Re.One (Re.Chr "{"); Re.Many Re.Dot; Re.One (Re.Chr "}")].

Definition re_DOTALL : Re.flags := {| Re.DOTALL := true |}.

(** ** Python values and exceptions *)

(** What [json.loads] can return: [None], [bool], [int], [float], [str],
    [list] and [dict].  A [dict] keeps its keys in insertion order; a key is
    looked up by its first binding. *)
#[warnings="-register-all"]
Inductive value : Type :=
| PyNone
| PyBool (b : bool)
| PyInt (n : Z)
| PyFloat (x : spec_float)
| PyStr (s : string)
| PyList (items : list value)
| PyDict (fields : list (string * value)).

Inductive exn : Type :=
| JSONDecodeError (msg : string)
| AttributeError (obj : value) (attr : string)
| KeyError (key : string)
| TypeError (obj : value)
| LibraryError (msg : string)
| ValueError (msg : string)
| RecursionError (msg : string).

(** Every exception above derives from [Exception]; only the first is a
    [json.JSONDecodeError].  [JSONDecodeError] is a subclass of
    [ValueError]: a handler for it does not catch a plain [ValueError]. *)
Definition is_Exception (e : exn) : bool := true.

Definition is_JSONDecodeError (e : exn) : bool :=
  match e with JSONDecodeError _ => true | _ => false end.

Inductive result (A : Type) : Type :=
| Ok (a : A)
| Raise (e : exn).
Arguments Ok {A} a.
Arguments Raise {A} e.

#[global] Instance result_ret : MRet result := fun A a => Ok a.
#[global] Instance result_bind : MBind result := fun A B f r =>
  match r with
  | Ok a => f a
  | Raise e => Raise e
  end.

Module Py.

Fixpoint lookup (key : string) (fields : list (string * value)) : option value :=
  match fields with
  | [] => None
  | (k, v) :: rest => if String.eqb k key then Some v else lookup key rest
  end.

(** [bool(v)] *)
Definition truthy (v : value) : bool :=
  match v with
  | PyNone => false
  | PyBool b => b
  | PyInt n => negb (n =? 0)%Z
  | PyFloat (S754_zero _) => false
  | PyFloat _ => true
  | PyStr s => negb (String.eqb s EmptyString)
  | PyList items => match items with [] => false | _ => true end
  | PyDict fields => match fields with [] => false | _ => true end
  end.

(** [v.get(key, default)]: only a [dict] has the method. *)
Definition get (v : value) (key : string) (default : value) : result value :=
  match v with
  | PyDict fields =>
      Ok (match lookup key fields with Some x => x | None => default end)
  | _ => Raise (AttributeError v "get")
  end.

(** [v[key]] for a [str] key *)
Definition getitem (v : value) (key : string) : result value :=
  match v with
  | PyDict fields =>
      match lookup key fields with
      | Some x => Ok x
      | None => Raise (KeyError key)
      end
  | _ => Raise (TypeError v)
  end.

(** [v.split(sep)] *)
Definition split (v : value) (sep : ascii) : result (list string) :=
  match v with
  | PyStr s => Ok (Str.split sep s)
  | _ => Raise (AttributeError v "split")
  end.

(** [for x in v]: the items of a [list], the keys of a [dict], the
    characters of a [str]; nothing else here is iterable. *)
Definition iter (v : value) : result (list value) :=
  match v with
  | PyList items => Ok items
  | PyDict fields => Ok (map (fun kv => PyStr (fst kv)) fields)
  | PyStr s => Ok (map PyStr (Str.chars s))
  | _ => Raise (TypeError v)
  end.

End Py.

(** [pd.Series(labels).value_counts()]: how often each label occurs.  The
    order of the rows of the table is left to the chart. *)
Definition value_counts (labels : list string) : gmap string nat :=
  foldr (fun l counts => <[l := S (default 0 (counts !! l))]> counts) ∅ labels.

(** ** Session state, outputs and the effects of a run *)

(** The options of the select box (l. 246). *)
Inductive tematica : Type :=
| NaoClassificado | DireitoPenal | Familia | Trabalhista | Civel
| Administrativo | Outro.

(** [st.session_state], with the four keys the script initialises
    (l. 231-239). *)
Record session_state : Type := {
  parsed_data : value;
  original_text : option string;
  classificacao_tematica : tematica;
  printing : bool
}.

(** The calls to the UI library and to the model endpoint, in the order of
    the source.  The line of the call is given with each. *)
Inductive output : Type :=
(* parse_and_display_results *)
| warning_json_retry (e : exn)            (* 129 st.warning *)
| error_json_final (e2 : exn)             (* 139 st.error *)
| code_raw (json_str : string)            (* 140, 144 st.code(json_str) *)
| error_no_json                           (* 143 st.error *)
| columns_1_3                             (* 150 st.columns *)
| metric_vies (porcentagem : value)       (* 153 col_perc.metric *)
| markdown_tematica (t : tematica)        (* 154 col_tematica.markdown *)
| markdown_rule                           (* 168, 180, 204, 280 st.markdown("---") *)
| heading_distribuicao                    (* 169 *)
| altair_chart (bias_counts : gmap string nat) (* 171-179 *)
| heading_relatorio                       (* 183 *)
| info (body : value)                     (* 184 st.info *)
| heading_detalhamento                    (* 188 *)
| info_nenhum_vies                        (* 191 st.info *)
| heading_tipo (tipo : string)            (* 194 st.markdown *)
| error_trecho                            (* 196 st.error *)
| code_plaintext (body : value)           (* 197, 200, 211 st.code *)
| success_sugestao                        (* 199 st.success *)
| warning_explicacao                      (* 202 st.warning *)
| write (body : value)                    (* 203 st.write *)
| heading_texto_reescrito                 (* 208 *)
| expander_reescrito                      (* 210 st.expander *)
| error_unexpected (e : exn)              (* 216 st.error *)
(* the page *)
| error_fitz_missing                      (* 17 st.error *)
| set_page_config                         (* 26 *)
| error_key_missing                       (* 36 st.error *)
| error_configure (e : exn)               (* 39 st.error *)
| error_pdf (e : exn)                     (* 61 st.error *)
| generate_content (prompt : string)      (* 110-113 model.generate_content *)
| error_gemini (e : exn)                  (* 116 st.error *)
| title                                   (* 227 st.title *)
| write_intro                             (* 228 st.write *)
| sidebar_header                          (* 243 st.header *)
| spinner_extraindo                       (* 252 st.spinner *)
| success_extraido                        (* 257 st.success *)
| text_area_original (text : string)      (* 259-260 st.expander, st.text_area *)
| button_analisar (clicked : bool)        (* 262 st.button *)
| spinner_analisando                      (* 265 st.spinner *)
| div_download_open                       (* 279 st.markdown *)
| subheader_salvar                        (* 281 st.subheader *)
| paragraph_salvar                        (* 282 st.markdown *)
| button_download_pdf (clicked : bool)    (* 284 st.button *)
| div_download_close                      (* 288 st.markdown *)
| print_css                               (* 293-324 st.markdown *)
| print_script                            (* 328-331 components.html *)
| warning_texto_vazio                     (* 338 st.warning *)
| info_envie_pdf.                         (* 340 st.info *)

(** A piece of the script: it reads and writes the session state, emits
    outputs, and returns or raises.  The state and the outputs of a piece
    that raises are kept, as in Python. *)
Definition M (A : Type) : Type :=
  session_state -> result A * session_state * list output.

Definition ret {A} (a : A) : M A := fun st => (Ok a, st, []).

Definition bind {A B} (c : M A) (k : A -> M B) : M B := fun st =>
  match c st with
  | (Ok a, st', out) =>
      let '(r, st'', out') := k a st' in (r, st'', out ++ out')
  | (Raise e, st', out) => (Raise e, st', out)
  end.

#[global] Instance M_ret : MRet M := @ret.
#[global] Instance M_bind : MBind M := fun A B k c => bind c k.

Definition emit (o : output) : M unit := fun st => (Ok tt, st, [o]).
Definition lift {A} (r : result A) : M A := fun st => (r, st, []).
Definition get_state : M session_state := fun st => (Ok st, st, []).
Definition put_state (st' : session_state) : M unit := fun _ => (Ok tt, st', []).

(** [try: body / except E as e: handler e], where [catches] says which
    exceptions are instances of [E]. *)
Definition try_except {A} (body : M A) (catches : exn -> bool)
    (handler : exn -> M A) : M A := fun st =>
  match body st with
  | (Ok a, st', out) => (Ok a, st', out)
  | (Raise e, st', out) =>
      if catches e then
        let '(r, st'', out') := handler e st' in (r, st'', out ++ out')
      else (Raise e, st', out)
  end.

(** [for x in xs: body x] *)
Fixpoint for_each {A} (xs : list A) (body : A -> M unit) : M unit :=
  match xs with
  | [] => mret tt
  | x :: rest => body x ;; for_each rest body
  end.

(** A block either falls through with a value or leaves the function by
    [return]. *)
Inductive flow (A B : Type) : Type :=
| Continue (a : A)
| Return (b : B).
Arguments Continue {A B} a.
Arguments Return {A B} b.

(** ** What a run receives from outside *)

(** The uploaded file is the bytes the browser sent. *)
Definition upload : Type := string.

Record run_input : Type := {
  fitz_installed : bool;                      (* 12-16 import fitz *)
  secrets_GEMINI_API_KEY : option string;     (* 31 st.secrets[...] *)
  genai_configure : string -> result unit;    (* 32 *)
  selectbox : tematica;                       (* 244-247 *)
  file_uploader : option upload;              (* 249 *)
  click_analisar : bool;                      (* 262 *)
  click_download_pdf : bool;                  (* 284 *)
  fitz_pages : upload -> result (list string);  (* 52-56 text of each page *)
  model_response : string -> result string    (* 108-114 response.text *)
}.

Definition with_parsed_data (v : value) (st : session_state) : session_state :=
  {| parsed_data := v; original_text := original_text st;
     classificacao_tematica := classificacao_tematica st;
     printing := printing st |}.

Definition with_original_text (t : option string) (st : session_state)
    : session_state :=
  {| parsed_data := parsed_data st; original_text := t;
     classificacao_tematica := classificacao_tematica st;
     printing := printing st |}.

Definition with_classificacao_tematica (t : tematica) (st : session_state)
    : session_state :=
  {| parsed_data := parsed_data st; original_text := original_text st;
     classificacao_tematica := t; printing := printing st |}.

Definition with_printing (b : bool) (st : session_state) : session_state :=
  {| parsed_data := parsed_data st; original_text := original_text st;
     classificacao_tematica := classificacao_tematica st;
     printing := b |}.

(** [st.session_state.key = v] *)
Definition set_parsed_data (v : value) : M unit := fun st =>
  (Ok tt, with_parsed_data v st, []).

Definition set_original_text (t : option string) : M unit := fun st =>
  (Ok tt, with_original_text t st, []).

Definition set_classificacao_tematica (t : tematica) : M unit := fun st =>
  (Ok tt, with_classificacao_tematica t st, []).

Definition set_printing (b : bool) : M unit := fun st =>
  (Ok tt, with_printing b st, []).

(** The session state of a new session, after l. 231-239. *)
Definition fresh_session : session_state :=
  {| parsed_data := PyNone; original_text := None;
     classificacao_tematica := NaoClassificado; printing := false |}.

(** The two defaults with accented letters (l. 184, 211). *)
Definition relatorio_nao_disponivel : string :=
  "Relat" +:+ String (ascii_of_nat 243) ("rio n" +:+ String (ascii_of_nat 227)
  ("o dispon" +:+ String (ascii_of_nat 237) "vel.")).

Definition reescrita_nao_disponivel : string :=
  "Reescrita n" +:+ String (ascii_of_nat 227)
  ("o dispon" +:+ String (ascii_of_nat 237) "vel.").

(** ** The program *)

Section Program.

(** [json.loads] on a [str], by its contract: the decoded value, or the
    message of the [JSONDecodeError] it raises.  The limits of the
    interpreter (depth of recursion, length of an integer literal) make
    [json.loads] raise other exceptions; they are not part of this contract.
    The functions that call the decoder are therefore given twice: first
    for any decoder, which may raise any exception ([decode_response_with],
    [parse_and_display_results_with]), then for this one. *)
Variable json_loads : string -> value + string.

(** [str.capitalize] *)
Variable capitalize : string -> string.

(** The prompt of l. 70-104 around the text of the decision. *)
Variable prompt : string -> string.

Definition loads (s : string) : result value :=
  match json_loads s with
  | inl v => Ok v
  | inr msg => Raise (JSONDecodeError msg)
  end.

Definition py_capitalize (v : value) : result string :=
  match v with
  | PyStr s => Ok (capitalize s)
  | _ => Raise (AttributeError v "capitalize")
  end.

(** *** extract_text_from_pdf (l. 44-62) *)

Definition page_texts (pages : list string) : string :=
  fold_left (fun text page => text +:+ (page +:+ String Re.newline EmptyString))
            pages EmptyString.

Definition extract_text_from_pdf (inp : run_input) (PDF_LIB_AVAILABLE : bool)
    (uploaded_file : upload) : M string :=
  if negb PDF_LIB_AVAILABLE then mret EmptyString
  else
    try_except
      (pages ← lift (fitz_pages inp uploaded_file);
       mret (Str.strip (page_texts pages)))
      is_Exception
      (fun e => emit (error_pdf e) ;; mret EmptyString).

(** *** analyze_with_gemini (l. 64-117) *)

Definition analyze_with_gemini (inp : run_input) (GEMINI_AVAILABLE : bool)
    (text : string) : M (option string) :=
  if negb GEMINI_AVAILABLE then mret None
  else
    try_except
      (emit (generate_content (prompt text)) ;;
       response_text ← lift (model_response inp (prompt text));
       mret (Some response_text))
      is_Exception
      (fun e => emit (error_gemini e) ;; mret None).

(** *** parse_and_display_results (l. 120-217) *)

(** l. 123-145: the three attempts.  [Continue data] goes on to the
    display, [Return PyNone] is one of the two [return None].  The two
    handlers are for [json.JSONDecodeError] only: any other exception of
    [json.loads] leaves the function. *)
Definition decode_response_with (json_loads : string -> result value)
    (json_str : string) : M (flow value value) :=
  try_except
    (data ← lift (json_loads json_str); mret (Continue data))
    is_JSONDecodeError
    (fun e =>
       emit (warning_json_retry e) ;;
       match Re.search re_DOTALL brace_pattern json_str with
       | Some cleaned_json_str =>
           try_except
             (data ← lift (json_loads cleaned_json_str); mret (Continue data))
             is_JSONDecodeError
             (fun e2 =>
                emit (error_json_final e2) ;;
                emit (code_raw json_str) ;;
                mret (Return PyNone))
       | None =>
           emit error_no_json ;;
           emit (code_raw json_str) ;;
           mret (Return PyNone)
       end).

Definition decode_response : string -> M (flow value value) :=
  decode_response_with loads.

(** l. 162-163: the labels of one entry *)
Definition item_labels (item : value) : result (list string) :=
  tipo ← Py.get item "tipo" (PyStr "desconhecido");
  types ← Py.split tipo ",";
  mret (map Str.strip types).

(** l. 160-163 *)
Fixpoint all_biases (all_biases_list : list string) (items : list value)
    : result (list string) :=
  match items with
  | [] => Ok all_biases_list
  | item :: rest =>
      labels ← item_labels item;
      all_biases (all_biases_list ++ labels) rest
  end.

(** l. 160-166: the table behind the chart *)
Definition bias_counts (items : list value) : result (gmap string nat) :=
  all_biases_list ← all_biases [] items;
  mret (value_counts all_biases_list).

(** l. 194-204: one entry of the detail *)
Definition display_item (item : value) : M unit :=
  tipo ← lift (Py.getitem item "tipo");
  heading ← lift (py_capitalize tipo);
  emit (heading_tipo heading) ;;
  emit error_trecho ;;
  trecho ← lift (Py.get item "trecho" (PyStr "N/A"));
  emit (code_plaintext trecho) ;;
  emit success_sugestao ;;
  sugestao ← lift (Py.get item "sugestao" (PyStr "N/A"));
  emit (code_plaintext sugestao) ;;
  emit warning_explicacao ;;
  explicacao ← lift (Py.get item "explicacao" (PyStr "N/A"));
  emit (write explicacao) ;;
  emit markdown_rule.

(** l. 150-213: the body of the second [try] *)
Definition display_results (data : value) : M value :=
  emit columns_1_3 ;;
  porcentagem ← lift (Py.get data "porcentagem_vies" (PyStr "N/A"));
  emit (metric_vies porcentagem) ;;
  st ← get_state;
  emit (markdown_tematica (classificacao_tematica st)) ;;
  analysis_list ← lift (Py.get data "analise" (PyList []));
  (if Py.truthy analysis_list then
     items ← lift (Py.iter analysis_list);
     counts ← lift (bias_counts items);
     emit markdown_rule ;;
     emit heading_distribuicao ;;
     emit (altair_chart counts) ;;
     emit markdown_rule
   else mret tt) ;;
  emit heading_relatorio ;;
  resumo ← lift (Py.get data "relatorio_resumo" (PyStr relatorio_nao_disponivel));
  emit (info resumo) ;;
  emit heading_detalhamento ;;
  (if negb (Py.truthy analysis_list) then emit info_nenhum_vies
   else
     items ← lift (Py.iter analysis_list);
     for_each items display_item) ;;
  emit heading_texto_reescrito ;;
  emit expander_reescrito ;;
  reescrito ← lift (Py.get data "texto_reescrito" (PyStr reescrita_nao_disponivel));
  emit (code_plaintext reescrito) ;;
  mret data.

(** l. 148-217: the second [try] with its handler *)
Definition try_display_results (data : value) : M value :=
  try_except (display_results data) is_Exception
    (fun e => emit (error_unexpected e) ;; mret PyNone).

Definition parse_and_display_results_with (json_loads : string -> result value)
    (json_str : string) : M value :=
  stage ← decode_response_with json_loads json_str;
  match stage with
  | Return r => mret r
  | Continue data => try_display_results data
  end.

Definition parse_and_display_results : string -> M value :=
  parse_and_display_results_with loads.

(** *** The page (l. 12-39 and 227-340): one run of the script *)

Definition is_KeyError (e : exn) : bool :=
  match e with KeyError _ => true | _ => false end.

(** l. 30-39 *)
Definition configure_gemini (inp : run_input) : M bool :=
  try_except
    (api_key ← lift (match secrets_GEMINI_API_KEY inp with
                     | Some k => Ok k
                     | None => Raise (KeyError "GEMINI_API_KEY")
                     end);
     lift (genai_configure inp api_key) ;;
     mret true)
    is_Exception
    (fun e =>
       if is_KeyError e then emit error_key_missing ;; mret false
       else emit (error_configure e) ;; mret false).

Definition text_truthy (t : option string) : bool :=
  match t with
  | Some s => negb (String.eqb s EmptyString)
  | None => false
  end.

(** l. 262-269 *)
Definition analisar (inp : run_input) (GEMINI_AVAILABLE : bool) : M unit :=
  emit (button_analisar (click_analisar inp)) ;;
  if click_analisar inp then
    set_parsed_data PyNone ;;
    emit spinner_analisando ;;
    st ← get_state;
    analysis_json_str ←
      analyze_with_gemini inp GEMINI_AVAILABLE (default EmptyString (original_text st));
    if text_truthy analysis_json_str then
      record ← parse_and_display_results (default EmptyString analysis_json_str);
      set_parsed_data record
    else mret tt
  else mret tt.

(** l. 276-334 *)
Definition download_pdf (inp : run_input) : M unit :=
  st ← get_state;
  if Py.truthy (parsed_data st) then
    emit div_download_open ;;
    emit markdown_rule ;;
    emit subheader_salvar ;;
    emit paragraph_salvar ;;
    emit (button_download_pdf (click_download_pdf inp)) ;;
    (if click_download_pdf inp then set_printing true else mret tt) ;;
    emit div_download_close ;;
    st' ← get_state;
    if printing st' then
      emit print_css ;;
      emit print_script ;;
      set_printing false
    else mret tt
  else mret tt.

Definition page (inp : run_input) : M unit :=
  if negb (fitz_installed inp) then emit error_fitz_missing (* st.stop() *)
  else
    emit set_page_config ;;
    GEMINI_AVAILABLE ← configure_gemini inp;
    emit title ;;
    emit write_intro ;;
    emit sidebar_header ;;
    set_classificacao_tematica (selectbox inp) ;;
    match file_uploader inp with
    | Some uploaded_file =>
        emit spinner_extraindo ;;
        text ← extract_text_from_pdf inp true uploaded_file;
        set_original_text (Some text) ;;
        st ← get_state;
        if text_truthy (original_text st) then
          emit success_extraido ;;
          emit (text_area_original (default EmptyString (original_text st))) ;;
          analisar inp GEMINI_AVAILABLE ;;
          download_pdf inp
        else emit warning_texto_vazio
    | None => emit info_envie_pdf
    end.

End Program.

(** ** A decoder to run the program on concrete texts

    The theorems below hold for every [json_loads].  To evaluate the program
    on a given response one is needed: [Json.loads] follows the scanner of
    Python's [json] module (objects, arrays, strings with their escapes,
    numbers, [true], [false], [null], [NaN] and the infinities; duplicate keys
    keep the last value).  Its messages carry no position, and a [\u] escape
    above U+00FF, which no [string] here can hold, is reported as an error. *)

Module Json.

Definition parser (A : Type) : Type := string -> string + (A * string).

Definition quote : ascii := "034"%char.
Definition backslash : ascii := "092"%char.

Definition is_ws (c : ascii) : bool :=
  let n := nat_of_ascii c in ((n =? 32) || (n =? 9) || (n =? 10) || (n =? 13))%nat.

Fixpoint skip_ws (s : string) : string :=
  match s with
  | String c s' => if is_ws c then skip_ws s' else s
  | EmptyString => s
  end.

Definition digit (c : ascii) : option Z :=
  let n := nat_of_ascii c in
  if ((48 <=? n) && (n <=? 57))%nat then Some (Z.of_nat n - 48)%Z else None.

Definition hexdigit (c : ascii) : option Z :=
  let n := nat_of_ascii c in
  if ((48 <=? n) && (n <=? 57))%nat then Some (Z.of_nat n - 48)%Z
  else if ((65 <=? n) && (n <=? 70))%nat then Some (Z.of_nat n - 55)%Z
  else if ((97 <=? n) && (n <=? 102))%nat then Some (Z.of_nat n - 87)%Z
  else None.

(** the digits at the start of [s], most significant first *)
Fixpoint digits (s : string) : list Z * string :=
  match s with
  | String c s' =>
      match digit c with
      | Some d => let '(ds, rest) := digits s' in (d :: ds, rest)
      | None => ([], s)
      end
  | EmptyString => ([], s)
  end.

Definition number_of (ds : list Z) : Z :=
  fold_left (fun acc d => (10 * acc + d)%Z) ds 0%Z.

(** [float(text)] for the decimal [sign m * 10^e], rounded to the nearest
    binary64, ties to even. *)
Definition float_of_decimal (negative : bool) (m e : Z) : spec_float :=
  match m with
  | Zpos _ =>
      match e with
      | Zneg k =>
          let den := Z.pow 10 (Zpos k) in
          let shift := (64 + 4 * Zpos k)%Z in
          let num := Z.shiftl m shift in
          let q := Z.div num den in
          let r := Z.modulo num den in
          let loc := if (r =? 0)%Z then loc_Exact
                     else loc_Inexact (Z.compare (2 * r) den) in
          binary_round_aux 53 1024 negative q (- shift) loc
      | _ =>
          match (m * Z.pow 10 e)%Z with
          | Zpos p => binary_round 53 1024 negative p 0
          | _ => S754_zero negative
          end
      end
  | _ => S754_zero negative
  end.

(** after the opening quote: the text up to the closing quote *)
Fixpoint scanstring (s : string) : string + (string * string) :=
  match s with
  | EmptyString => inl "Unterminated string starting at"
  | String c s' =>
      if Ascii.eqb c quote then inr (EmptyString, s')
      else if Ascii.eqb c backslash then
        match s' with
        | EmptyString => inl "Unterminated string starting at"
        | String esc s'' =>
            let continue (ch : ascii) (rest : string + (string * string)) :=
              match rest with
              | inr (text, after) => inr (String ch text, after)
              | inl msg => inl msg
              end in
            if Ascii.eqb esc quote then continue quote (scanstring s'')
            else if Ascii.eqb esc backslash then continue backslash (scanstring s'')
            else if Ascii.eqb esc "/" then continue "/"%char (scanstring s'')
            else if Ascii.eqb esc "b" then continue "008"%char (scanstring s'')
            else if Ascii.eqb esc "f" then continue "012"%char (scanstring s'')
            else if Ascii.eqb esc "n" then continue "010"%char (scanstring s'')
            else if Ascii.eqb esc "r" then continue "013"%char (scanstring s'')
            else if Ascii.eqb esc "t" then continue "009"%char (scanstring s'')
            else if Ascii.eqb esc "u" then
              match s'' with
              | String h1 (String h2 (String h3 (String h4 s4))) =>
                  match hexdigit h1, hexdigit h2, hexdigit h3, hexdigit h4 with
                  | Some a, Some b, Some c', Some d =>
                      let cp := (4096 * a + 256 * b + 16 * c' + d)%Z in
                      if (cp <? 256)%Z
                      then continue (ascii_of_nat (Z.to_nat cp)) (scanstring s4)
                      else inl "code point above U+00FF"
                  | _, _, _, _ => inl "Invalid \uXXXX escape"
                  end
              | _ => inl "Invalid \uXXXX escape"
              end
            else inl "Invalid \escape"
        end
      else if (nat_of_ascii c <? 32)%nat then inl "Invalid control character at"
      else
        match scanstring s' with
        | inr (text, after) => inr (String c text, after)
        | inl msg => inl msg
        end
  end.

(** A JSON number: an optional minus sign, the integer part (0, or a
    nonzero digit and more digits), an optional fraction (a point and
    digits) and an optional exponent (e or E, a sign, digits).  Without
    fraction and exponent it is an [int], else a [float]. *)
Definition scan_number (s : string) : option (value * string) :=
  let '(negative, s1) :=
    match s with
    | String "-" s' => (true, s')
    | _ => (false, s)
    end in
  let '(int_digits, s2) :=
    match s1 with
    | String "0" s' => ([0%Z], s')
    | _ => digits s1
    end in
  match int_digits with
  | [] => None
  | _ =>
      let '(frac_digits, s3) :=
        match s2 with
        | String "." s' =>
            match digits s' with
            | ([], _) => ([], s2)
            | (ds, rest) => (ds, rest)
            end
        | _ => ([], s2)
        end in
      let exponent : option (Z * string) :=
        match s3 with
        | String c s' =>
            if Ascii.eqb c "e" || Ascii.eqb c "E" then
              let '(exp_negative, s'') :=
                match s' with
                | String "-" t => (true, t)
                | String "+" t => (false, t)
                | _ => (false, s')
                end in
              match digits s'' with
              | ([], _) => None
              | (ds, rest) =>
                  Some (if exp_negative then (- number_of ds)%Z else number_of ds, rest)
              end
            else None
        | EmptyString => None
        end in
      match frac_digits, exponent with
      | [], None =>
          let n := number_of int_digits in
          Some (PyInt (if negative then (- n)%Z else n), s3)
      | _, _ =>
          let m := number_of (int_digits ++ frac_digits) in
          let '(e, rest) := match exponent with
                            | Some (e, rest) => (e, rest)
                            | None => (0%Z, s3)
                            end in
          Some (PyFloat (float_of_decimal negative m (e - Z.of_nat (length frac_digits))),
                rest)
      end
  end.

(** [s] starts with [word]: what follows it *)
Fixpoint literal (word s : string) : option string :=
  match word, s with
  | EmptyString, _ => Some s
  | String c word', String d s' => if Ascii.eqb c d then literal word' s' else None
  | String _ _, EmptyString => None
  end.

(** [dict(pairs)]: a repeated key keeps its place and takes the new value *)
Fixpoint dict_set (key : string) (v : value) (fields : list (string * value))
    : list (string * value) :=
  match fields with
  | [] => [(key, v)]
  | (k, x) :: rest =>
      if String.eqb k key then (k, v) :: rest else (k, x) :: dict_set key v rest
  end.

Definition dict_of (pairs : list (string * value)) : list (string * value) :=
  fold_left (fun fields kv => dict_set (fst kv) (snd kv) fields) pairs [].

Definition expecting_value : string := "Expecting value".

(** [scan_once], [JSONObject] and [JSONArray]; [fuel] bounds the nesting
    and the number of members.  The scanner is given for any type [E] of
    failures: [syntax_error] makes the failure of a malformed text, and
    [number] scans a number, where [int] and [float] may fail on their
    own. *)
Section Scanner.

Context {E : Type}.
Variable syntax_error : string -> E.
Variable number : string -> option (E + (value * string)).

Fixpoint scan_once (fuel : nat) (s : string) : E + (value * string) :=
  match fuel with
  | O => inl (syntax_error expecting_value)
  | S fuel' =>
      match s with
      | EmptyString => inl (syntax_error expecting_value)
      | String c s' =>
          if Ascii.eqb c quote then
            match scanstring s' with
            | inr (text, rest) => inr (PyStr text, rest)
            | inl msg => inl (syntax_error msg)
            end
          else if Ascii.eqb c "{" then
            match skip_ws s' with
            | String "}" rest => inr (PyDict [], rest)
            | body =>
                match members fuel' body with
                | inr (pairs, rest) => inr (PyDict (dict_of pairs), rest)
                | inl e => inl e
                end
            end
          else if Ascii.eqb c "[" then
            match skip_ws s' with
            | String "]" rest => inr (PyList [], rest)
            | body =>
                match elements fuel' body with
                | inr (items, rest) => inr (PyList items, rest)
                | inl e => inl e
                end
            end
          else
            match literal "null" s, literal "true" s, literal "false" s with
            | Some rest, _, _ => inr (PyNone, rest)
            | _, Some rest, _ => inr (PyBool true, rest)
            | _, _, Some rest => inr (PyBool false, rest)
            | None, None, None =>
                match number s with
                | Some r => r
                | None =>
                    match literal "NaN" s, literal "Infinity" s, literal "-Infinity" s with
                    | Some rest, _, _ => inr (PyFloat S754_nan, rest)
                    | _, Some rest, _ => inr (PyFloat (S754_infinity false), rest)
                    | _, _, Some rest => inr (PyFloat (S754_infinity true), rest)
                    | None, None, None => inl (syntax_error expecting_value)
                    end
                end
            end
      end
  end
with members (fuel : nat) (s : string) : E + (list (string * value) * string) :=
  match fuel with
  | O => inl (syntax_error expecting_value)
  | S fuel' =>
      match s with
      | String c s' =>
          if Ascii.eqb c quote then
            match scanstring s' with
            | inl msg => inl (syntax_error msg)
            | inr (key, s1) =>
                match skip_ws s1 with
                | String ":" s2 =>
                    match scan_once fuel' (skip_ws s2) with
                    | inl e => inl e
                    | inr (v, s3) =>
                        match skip_ws s3 with
                        | String "}" rest => inr ([(key, v)], rest)
                        | String "," s4 =>
                            match members fuel' (skip_ws s4) with
                            | inr (pairs, rest) => inr ((key, v) :: pairs, rest)
                            | inl e => inl e
                            end
                        | _ => inl (syntax_error "Expecting ',' delimiter")
                        end
                    end
                | _ => inl (syntax_error "Expecting ':' delimiter")
                end
            end
          else inl (syntax_error "Expecting property name enclosed in double quotes")
      | EmptyString => inl (syntax_error "Expecting property name enclosed in double quotes")
      end
  end
with elements (fuel : nat) (s : string) : E + (list value * string) :=
  match fuel with
  | O => inl (syntax_error expecting_value)
  | S fuel' =>
      match scan_once fuel' s with
      | inl e => inl e
      | inr (v, s1) =>
          match skip_ws s1 with
          | String "]" rest => inr ([v], rest)
          | String "," s2 =>
              match elements fuel' (skip_ws s2) with
              | inr (items, rest) => inr (v :: items, rest)
              | inl e => inl e
              end
          | _ => inl (syntax_error "Expecting ',' delimiter")
          end
      end
  end.

End Scanner.

(** [json.loads(s)] without the limits of the interpreter: the failures
    are the messages of [JSONDecodeError]. *)
Definition loads (s : string) : value + string :=
  match scan_once id (fun t => inr <$> scan_number t)
          (2 * String.length s + 2) (skip_ws s) with
  | inl msg => inr msg
  | inr (v, rest) =>
      match skip_ws rest with
      | EmptyString => inl v
      | _ => inr "Extra data"
      end
  end.

(** [sys.get_int_max_str_digits()] as the interpreter starts *)
Definition int_max_str_digits : nat := 4300.

(** A number under that limit: [int] refuses a literal of more digits with
    [ValueError]; [float] has no limit.  A JSON integer has no leading
    zero, so its literal has more than [k] digits exactly when its absolute
    value is at least [10^k]. *)
Definition scan_number_limited (s : string) : option (exn + (value * string)) :=
  match scan_number s with
  | Some (PyInt n, rest) =>
      if (10 ^ Z.of_nat int_max_str_digits <=? Z.abs n)%Z
      then Some (inl (ValueError "Exceeds the limit for integer string conversion"))
      else Some (inr (PyInt n, rest))
  | Some r => Some (inr r)
  | None => None
  end.

(** [json.loads(s)] with the limit on integer literals: it raises
    [JSONDecodeError] on a malformed text and [ValueError] at an integer
    literal beyond the limit.  The depth of recursion, which varies with
    the interpreter and the stack of the caller, is not bounded here. *)
Definition loads_limited (s : string) : result value :=
  match scan_once JSONDecodeError scan_number_limited
          (2 * String.length s + 2) (skip_ws s) with
  | inl e => Raise e
  | inr (v, rest) =>
      match skip_ws rest with
      | EmptyString => Ok v
      | _ => Raise (JSONDecodeError "Extra data")
      end
  end.


End Json.

(** [str.capitalize] on the letters A-Z and a-z; the other characters are
    left as they are. *)
Module AsciiCase.

Definition upper (c : ascii) : ascii :=
  let n := nat_of_ascii c in
  if ((97 <=? n) && (n <=? 122))%nat then ascii_of_nat (n - 32) else c.

Definition lower (c : ascii) : ascii :=
  let n := nat_of_ascii c in
  if ((65 <=? n) && (n <=? 90))%nat then ascii_of_nat (n + 32) else c.

Fixpoint lower_all (s : string) : string :=
  match s with
  | EmptyString => EmptyString
  | String c s' => String (lower c) (lower_all s')
  end.

Definition capitalize (s : string) : string :=
  match s with
  | EmptyString => EmptyString
  | String c s' => String (upper c) (lower_all s')
  end.

End AsciiCase.


(** ** Vocabulary of the statements *)

(** A text between double quotes, to write JSON documents. *)
Definition quoted (s : string) : string :=
  String Json.quote (s +:+ String Json.quote EmptyString).

(** [s] has a ["{"] with a ["}"] somewhere after it. *)
Fixpoint has_brace_pair (s : string) : bool :=
  match s with
  | EmptyString => false
  | String c s' => (Ascii.eqb c "{" && Str.contains "}" s') || has_brace_pair s'
  end.

Definition is_str (v : value) : bool :=
  match v with PyStr _ => true | _ => false end.

Definition is_int (v : value) : bool :=
  match v with PyInt _ => true | _ => false end.

Definition has_str (key : string) (fields : list (string * value)) : bool :=
  match Py.lookup key fields with
  | Some v => is_str v
  | None => false
  end.

(** One entry of [analise] as the prompt asks for it (l. 89-94). *)
Definition finding_matches_schema (item : value) : bool :=
  match item with
  | PyDict fields =>
      has_str "tipo" fields && has_str "trecho" fields
      && has_str "explicacao" fields && has_str "sugestao" fields
  | _ => false
  end.

(** The document the prompt asks for (l. 85-103). *)
Definition matches_schema (v : value) : bool :=
  match v with
  | PyDict fields =>
      match Py.lookup "porcentagem_vies" fields with
      | Some p => is_int p
      | None => false
      end
      && has_str "relatorio_resumo" fields
      && match Py.lookup "analise" fields with
         | Some (PyList items) => forallb finding_matches_schema items
         | _ => false
         end
      && has_str "texto_reescrito" fields
  | _ => false
  end.

(** What the display needs of an entry: a [dict] whose ["tipo"] is a [str]. *)
Definition item_renderable (item : value) : bool :=
  match item with
  | PyDict fields => has_str "tipo" fields
  | _ => false
  end.

(** What the display needs of the decoded value: a [dict] whose ["analise"]
    is absent, falsy, or a list of entries it can show. *)
Definition renderable (data : value) : bool :=
  match data with
  | PyDict fields =>
      match Py.lookup "analise" fields with
      | None => true
      | Some analysis_list =>
          negb (Py.truthy analysis_list)
          || match analysis_list with
             | PyList items => forallb item_renderable items
             | _ => false
             end
      end
  | _ => false
  end.

(** What the first loop (l. 161-163) needs of an entry: a [dict] whose
    ["tipo"] is absent or a [str]. *)
Definition item_labelable (item : value) : bool :=
  match item with
  | PyDict fields =>
      match Py.lookup "tipo" fields with
      | Some v => is_str v
      | None => true
      end
  | _ => false
  end.

(** the value of a key, or the default *)
Definition field_or (key : string) (default : value)
    (fields : list (string * value)) : value :=
  match Py.lookup key fields with
  | Some x => x
  | None => default
  end.

(** What is shown for one entry (l. 194-204). *)
Definition detail_outputs (capitalize : string -> string) (item : value)
    : list output :=
  match item with
  | PyDict fields =>
      match Py.lookup "tipo" fields with
      | Some (PyStr tipo) =>
          [heading_tipo (capitalize tipo);
           error_trecho;
           code_plaintext (field_or "trecho" (PyStr "N/A") fields);
           success_sugestao;
           code_plaintext (field_or "sugestao" (PyStr "N/A") fields);
           warning_explicacao;
           write (field_or "explicacao" (PyStr "N/A") fields);
           markdown_rule]
      | _ => []
      end
  | _ => []
  end.

(** The chart and its frame (l. 165-180). *)
Definition chart_outputs (items : list value) : list output :=
  match bias_counts items with
  | Ok counts =>
      [markdown_rule; heading_distribuicao; altair_chart counts; markdown_rule]
  | Raise _ => []
  end.

(** The report of a decoded [dict], as [display_results] shows it when it
    reaches its end. *)
Definition report (capitalize : string -> string) (t : tematica)
    (fields : list (string * value)) : list output :=
  let analysis_list := field_or "analise" (PyList []) fields in
  let items := match analysis_list with PyList items => items | _ => [] end in
  [columns_1_3;
   metric_vies (field_or "porcentagem_vies" (PyStr "N/A") fields);
   markdown_tematica t]
  ++ (if Py.truthy analysis_list then chart_outputs items else [])
  ++ [heading_relatorio;
      info (field_or "relatorio_resumo" (PyStr relatorio_nao_disponivel) fields);
      heading_detalhamento]
  ++ (if Py.truthy analysis_list
      then concat (map (detail_outputs capitalize) items)
      else [info_nenhum_vies])
  ++ [heading_texto_reescrito;
      expander_reescrito;
      code_plaintext (field_or "texto_reescrito" (PyStr reescrita_nao_disponivel) fields)].

(** The outcomes of [json.loads] that the handlers of l. 128 and l. 138
    provide for: a value, or [JSONDecodeError]. *)
Definition decodes_or_rejects (r : result value) : bool :=
  match r with
  | Ok _ => true
  | Raise e => is_JSONDecodeError e
  end.

(** The outputs of [parse_and_display_results]. *)
Definition report_output (o : output) : bool :=
  match o with
  | warning_json_retry _ | error_json_final _ | code_raw _ | error_no_json
  | columns_1_3 | metric_vies _ | markdown_tematica _ | markdown_rule
  | heading_distribuicao | altair_chart _ | heading_relatorio | info _
  | heading_detalhamento | info_nenhum_vies | heading_tipo _ | error_trecho
  | code_plaintext _ | success_sugestao | warning_explicacao | write _
  | heading_texto_reescrito | expander_reescrito | error_unexpected _ => true
  | _ => false
  end.

(** The outputs of the fallback stages (l. 129-145). *)
Definition fallback_output (o : output) : bool :=
  match o with
  | warning_json_retry _ | error_json_final _ | code_raw _ | error_no_json => true
  | _ => false
  end.

(** A piece of the script that leaves the session state as it is and emits
    outputs of the report only. *)
Definition quiet {A} (c : M A) : Prop :=
  forall st, exists r out,
    c st = (r, st, out) /\ Forall (fun o => report_output o = true) out.

Definition is_print_script (o : output) : bool :=
  match o with print_script => true | _ => false end.

Definition is_print_css (o : output) : bool :=
  match o with print_css => true | _ => false end.

Definition is_download_click (o : output) : bool :=
  match o with button_download_pdf true => true | _ => false end.

Definition is_generate_content (o : output) : bool :=
  match o with generate_content _ => true | _ => false end.

Definition is_button_analisar (o : output) : bool :=
  match o with button_analisar _ => true | _ => false end.

Definition is_analisar_click (o : output) : bool :=
  match o with button_analisar true => true | _ => false end.

Definition is_warning_texto_vazio (o : output) : bool :=
  match o with warning_texto_vazio => true | _ => false end.

(** how many outputs of a run satisfy [p] *)
Definition count (p : output -> bool) (out : list output) : nat :=
  length (List.filter p out).

(** the text [extract_text_from_pdf] returns for an upload *)
Definition extracted_text (inp : run_input) (uploaded_file : upload) : string :=
  match fitz_pages inp uploaded_file with
  | Ok pages => Str.strip (page_texts pages)
  | Raise _ => EmptyString
  end.

(** The state a run leaves and the outputs it makes. *)
Definition state_after {A} (r : result A * session_state * list output) : session_state :=
  snd (fst r).

Definition outputs_of {A} (r : result A * session_state * list output) : list output :=
  snd r.

Definition result_of {A} (r : result A * session_state * list output) : result A :=
  fst (fst r).

(** the text of the upload of a run; empty without an upload *)
Definition uploaded_text (inp : run_input) : string :=
  match file_uploader inp with
  | Some uploaded_file => extracted_text inp uploaded_file
  | None => EmptyString
  end.

(** [GEMINI_AVAILABLE] after l. 30-39 *)
Definition gemini_available (inp : run_input) : bool :=
  match secrets_GEMINI_API_KEY inp with
  | Some api_key =>
      match genai_configure inp api_key with
      | Ok _ => true
      | Raise _ => false
      end
  | None => false
  end.

(** what l. 30-39 show *)
Definition configure_outputs (inp : run_input) : list output :=
  match secrets_GEMINI_API_KEY inp with
  | Some api_key =>
      match genai_configure inp api_key with
      | Ok _ => []
      | Raise e => if is_KeyError e then [error_key_missing] else [error_configure e]
      end
  | None => [error_key_missing]
  end.

(** what [extract_text_from_pdf] shows *)
Definition extract_outputs (inp : run_input) (uploaded_file : upload) : list output :=
  match fitz_pages inp uploaded_file with
  | Ok _ => []
  | Raise e => [error_pdf e]
  end.

(** what [analyze_with_gemini] returns on the text, and what it emits *)
Definition analysis_reply (prompt : string -> string) (inp : run_input)
    (text : string) : option string :=
  if gemini_available inp then
    match model_response inp (prompt text) with
    | Ok response_text => Some response_text
    | Raise _ => None
    end
  else None.

Definition gemini_outputs (prompt : string -> string) (inp : run_input)
    (text : string) : list output :=
  if gemini_available inp then
    generate_content (prompt text)
    :: match model_response inp (prompt text) with
       | Ok _ => []
       | Raise e => [error_gemini e]
       end
  else [].

(** what [parse_and_display_results] returns on a response *)
Definition record_of (json_loads : string -> value + string) (json_str : string)
    : value :=
  let shown data := if renderable data then data else PyNone in
  match json_loads json_str with
  | inl data => shown data
  | inr _ =>
      match Re.search re_DOTALL brace_pattern json_str with
      | Some cleaned =>
          match json_loads cleaned with
          | inl data => shown data
          | inr _ => PyNone
          end
      | None => PyNone
      end
  end.

(** what an analysis leaves in [parsed_data] (l. 263-269) *)
Definition analysis_record (json_loads : string -> value + string)
    (prompt : string -> string) (inp : run_input) (text : string) : value :=
  match analysis_reply prompt inp text with
  | Some response_text =>
      if String.eqb response_text EmptyString then PyNone
      else record_of json_loads response_text
  | None => PyNone
  end.

(** the button of l. 262 is shown in the run *)
Definition analisar_reached (inp : run_input) : bool :=
  fitz_installed inp && negb (String.eqb (uploaded_text inp) EmptyString).

(** the button of l. 262 is shown and returns [True] *)
Definition analisar_activated (inp : run_input) : bool :=
  analisar_reached inp && click_analisar inp.

(** [parsed_data] when the run comes to l. 276 *)
Definition parsed_data_at_download (json_loads : string -> value + string)
    (prompt : string -> string) (inp : run_input) (st : session_state) : value :=
  if click_analisar inp then analysis_record json_loads prompt inp (uploaded_text inp)
  else parsed_data st.

(** the button of l. 284 is shown in the run *)
Definition download_reached (json_loads : string -> value + string)
    (prompt : string -> string) (inp : run_input) (st : session_state) : bool :=
  analisar_reached inp
  && Py.truthy (parsed_data_at_download json_loads prompt inp st).


(** what a run shows before it looks at the upload (l. 26-249) *)
Definition page_head (inp : run_input) : list output :=
  set_page_config :: configure_outputs inp ++ [title; write_intro; sidebar_header].

(** the state and the outputs of l. 276-334 *)
Definition download_state (inp : run_input) (st : session_state) : session_state :=
  if Py.truthy (parsed_data st) && (click_download_pdf inp || printing st)
  then with_printing false st
  else st.

Definition download_outputs (inp : run_input) (st : session_state) : list output :=
  if Py.truthy (parsed_data st) then
    [div_download_open; markdown_rule; subheader_salvar; paragraph_salvar;
     button_download_pdf (click_download_pdf inp); div_download_close]
    ++ (if click_download_pdf inp || printing st
        then [print_css; print_script]
        else [])
  else [].

(** no output of the print block *)
Definition printless (o : output) : bool :=
  negb (is_print_script o || is_print_css o || is_download_click o).

(** A session: the runs of the page, one after the other; the state and the
    outputs of each. *)
Fixpoint session (json_loads : string -> value + string)
    (capitalize : string -> string) (prompt : string -> string)
    (runs : list run_input) (st : session_state)
    : list (session_state * list output) :=
  match runs with
  | [] => []
  | inp :: rest =>
      let r := page json_loads capitalize prompt inp st in
      (state_after r, outputs_of r)
      :: session json_loads capitalize prompt rest (state_after r)
  end.

(** the height of the bar of [label] *)
Definition tally (counts : gmap string nat) (label : string) : nat :=
  default 0 (counts !! label).

Fixpoint occurrences (label : string) (labels : list string) : nat :=
  match labels with
  | [] => 0
  | l :: rest => (if String.eqb l label then 1 else 0) + occurrences label rest
  end.

(** [label] between two runs of white space *)
Definition padded (label : string) (pad : string * string) : string :=
  fst pad +:+ (label +:+ snd pad).

Definition blank_pad (pad : string * string) : bool :=
  Str.blank (fst pad) && Str.blank (snd pad).

(** a ["tipo"] field: the labels, each padded, joined by commas *)
Definition tipo_of (labels : list string) (pads : list (string * string)) : string :=
  Str.join "," (zip_with padded labels pads).

(** ** Vocabulary of the further properties *)

(** how often the character [c] occurs in [s] *)
Fixpoint char_count (c : ascii) (s : string) : nat :=
  match s with
  | EmptyString => 0
  | String d s' => (if Ascii.eqb d c then 1 else 0) + char_count c s'
  end.

Definition is_dict (v : value) : bool :=
  match v with PyDict _ => true | _ => false end.

Definition is_download_button (o : output) : bool :=
  match o with button_download_pdf _ => true | _ => false end.

Definition is_altair_chart (o : output) : bool :=
  match o with altair_chart _ => true | _ => false end.

Definition is_error_gemini (o : output) : bool :=
  match o with error_gemini _ => true | _ => false end.

(** What a session state can hold between two runs: the flag down, no
    record or a record that was displayed to its end, no text or a stripped
    text. *)
Definition between_runs (st : session_state) : Prop :=
  printing st = false
  /\ (parsed_data st = PyNone \/ renderable (parsed_data st) = true)
  /\ match original_text st with
     | Some text => Str.strip text = text
     | None => True
     end.

(** what the analysis of a run displays (l. 268-269): the outputs of
    [parse_and_display_results] on the reply, when there is one *)
Definition analysis_shown (json_loads : string -> value + string)
    (capitalize : string -> string) (prompt : string -> string)
    (inp : run_input) (text : string) (st : session_state) : list output :=
  match analysis_reply prompt inp text with
  | Some response_text =>
      if String.eqb response_text EmptyString then []
      else outputs_of (parse_and_display_results json_loads capitalize
                         response_text st)
  | None => []
  end.

(** an output of the report that no other part of the page emits *)
Definition report_body (o : output) : bool :=
  report_output o && negb (match o with markdown_rule => true | _ => false end).

(** On the state [st], a piece of the script leaves the state as it is and
    emits only outputs that satisfy [P]. *)
Definition emits_at {A} (P : output -> Prop) (c : M A) (st : session_state)
    : Prop :=
  exists r out, c st = (r, st, out) /\ Forall P out.

(** the classification an output shows, if it shows one, is that of [st] *)
Definition shows_tematica_of (st : session_state) (o : output) : Prop :=
  forall t, o = markdown_tematica t -> t = classificacao_tematica st.

(** ** Concrete responses and runs *)

Definition json_member (key text : string) : string :=
  quoted key +:+ (": " +:+ text).

(** A response that follows the schema of the prompt. *)
Definition conforming_response : string :=
  "{" +:+ json_member "porcentagem_vies" "45" +:+ ", "
  +:+ json_member "relatorio_resumo" (quoted "Um trecho com vies.") +:+ ", "
  +:+ json_member "analise"
        ("[{" +:+ json_member "tipo" (quoted "gender, moral") +:+ ", "
         +:+ json_member "trecho" (quoted "a") +:+ ", "
         +:+ json_member "explicacao" (quoted "b") +:+ ", "
         +:+ json_member "sugestao" (quoted "c") +:+ "}]") +:+ ", "
  +:+ json_member "texto_reescrito" (quoted "d") +:+ "}".

Definition conforming_record : value :=
  PyDict
    [("porcentagem_vies", PyInt 45);
     ("relatorio_resumo", PyStr "Um trecho com vies.");
     ("analise",
      PyList [PyDict [("tipo", PyStr "gender, moral"); ("trecho", PyStr "a");
                      ("explicacao", PyStr "b"); ("sugestao", PyStr "c")]]);
     ("texto_reescrito", PyStr "d")].



(** A response whose one entry has no ["tipo"]. *)
Definition missing_tipo_response : string :=
  "{" +:+ json_member "analise" ("[{" +:+ json_member "trecho" (quoted "x") +:+ "}]")
  +:+ "}".

Definition missing_tipo_record : value :=
  PyDict [("analise", PyList [PyDict [("trecho", PyStr "x")]])].

(** The same object inside a sentence. *)
Definition wrapped_missing_tipo_response : string :=
  "Here you go: " +:+ (missing_tipo_response +:+ " thanks").

(** A response made of one integer of 4301 digits: ["1" * 4301]. *)
Definition long_integer_response : string :=
  string_of_list_ascii (repeat "1"%char (S Json.int_max_str_digits)).

Definition example_prompt (text : string) : string := "Texto: " +:+ text.

(** A run with an uploaded decision of one page and a model that answers
    [reply]. *)
Definition example_run (pages : list string) (reply : result string)
    (analisar_clicked download_clicked : bool) : run_input :=
  {| fitz_installed := true;
     secrets_GEMINI_API_KEY := Some "key";
     genai_configure := fun _ => Ok tt;
     selectbox := Familia;
     file_uploader := Some "%PDF-1.7";
     click_analisar := analisar_clicked;
     click_download_pdf := download_clicked;
     fitz_pages := fun _ => Ok pages;
     model_response := fun _ => reply |}.

Definition decision_pages : list string := ["A re nao merece credito."].

(** The analyze button is clicked and the call to the model fails. *)
Definition failing_call_run : run_input :=
  example_run decision_pages (Raise (LibraryError "503 Service Unavailable"))
    true false.

(** The analyze button is clicked and the model answers without JSON. *)
Definition unparseable_reply_run : run_input :=
  example_run decision_pages (Ok "Desculpe, nao consegui analisar.") true false.

(** The download button is clicked. *)
Definition download_click_run : run_input :=
  example_run decision_pages (Ok conforming_response) false true.

(** The upload has two pages without text. *)
Definition blank_pdf_run : run_input :=
  example_run ["  "; ""] (Ok conforming_response) true false.

(** The analyze button is clicked and the model answers with the
    conforming response. *)
Definition analysis_click_run : run_input :=
  example_run decision_pages (Ok conforming_response) true false.

(** Two entries, to be counted in both orders. *)
Definition entry_gender_moral : value := PyDict [("tipo", PyStr "gender, moral")].

Definition entry_racial : value := PyDict [("tipo", PyStr "racial")].

(** A session that holds the record of an earlier analysis. *)
Definition session_with_record : session_state :=
  {| parsed_data := conforming_record;
     original_text := Some "A re nao merece credito.";
     classificacao_tematica := Familia;
     printing := false |}.

(** * Properties *)

(** ** Strings *)

Lemma append_nil (b : string) : EmptyString +:+ b = b.
Proof. reflexivity. Qed.

Lemma append_cons (c : ascii) (a b : string) :
  String c a +:+ b = String c (a +:+ b).
Proof. reflexivity. Qed.

(** [String.append] is not unfolded by [simpl]: its two equations are used
    as rewrite rules. *)
Ltac str_simpl := rewrite ?append_cons, ?append_nil; simpl.

Lemma append_empty_r (s : string) : s +:+ EmptyString = s.
Proof. induction s as [|c s IH]; str_simpl; [reflexivity | now rewrite IH]. Qed.


Lemma contains_append (c : ascii) (a b : string) :
  Str.contains c (a +:+ b) = Str.contains c a || Str.contains c b.
Proof.
  induction a as [|x a IH]; str_simpl; [reflexivity|].
  rewrite IH. now rewrite orb_assoc.
Qed.

Lemma blank_no_comma (w : string) :
  Str.blank w = true -> Str.contains "," w = false.
Proof.
  induction w as [|c w IH]; simpl; [reflexivity|].
  intros [Hc Hw]%andb_prop. rewrite (IH Hw), orb_false_r.
  destruct (Ascii.eqb_spec c ","); [subst; discriminate | reflexivity].
Qed.

Lemma lstrip_blank (w s : string) :
  Str.blank w = true -> Str.lstrip (w +:+ s) = Str.lstrip s.
Proof.
  induction w as [|c w IH]; str_simpl; [reflexivity|].
  intros [Hc Hw]%andb_prop. rewrite Hc. auto.
Qed.

Lemma rstrip_blank_only (w : string) :
  Str.blank w = true -> Str.rstrip w = EmptyString.
Proof.
  induction w as [|c w IH]; simpl; [reflexivity|].
  intros [Hc Hw]%andb_prop. now rewrite (IH Hw), Hc.
Qed.

Lemma rstrip_blank (s w : string) :
  Str.blank w = true -> Str.rstrip (s +:+ w) = Str.rstrip s.
Proof.
  intros Hw. induction s as [|c s IH]; str_simpl.
  - now apply rstrip_blank_only.
  - now rewrite IH.
Qed.

(** What is left of [s +:+ w] after [lstrip] is what is left of [s], then
    [w], unless [s] is blank. *)
Lemma lstrip_append (s w : string) :
  Str.blank w = true ->
  Str.rstrip (Str.lstrip (s +:+ w)) = Str.rstrip (Str.lstrip s).
Proof.
  intros Hw. induction s as [|c s IH]; str_simpl.
  - assert (Str.lstrip w = EmptyString) as ->; [|reflexivity].
    clear -Hw. induction w as [|c w IH]; simpl; [reflexivity|].
    apply andb_prop in Hw as [Hc Hw]. rewrite Hc. auto.
  - destruct (Str.isspace c); [exact IH|].
    rewrite <- append_cons. now apply rstrip_blank.
Qed.

(** Stripping ignores the white space around a label. *)
Lemma strip_padded (label : string) (pad : string * string) :
  blank_pad pad = true -> Str.strip (padded label pad) = Str.strip label.
Proof.
  unfold blank_pad, padded, Str.strip. intros [H1 H2]%andb_prop.
  rewrite lstrip_blank by exact H1. now apply lstrip_append.
Qed.

Lemma split_nonempty (sep : ascii) (s : string) : Str.split sep s <> [].
Proof.
  destruct s as [|c s]; simpl; [discriminate|].
  destruct (Ascii.eqb c sep); [discriminate|].
  destruct (Str.split sep s); discriminate.
Qed.

(** A text without the separator is one piece. *)
Lemma split_one (sep : ascii) (s : string) :
  Str.contains sep s = false -> Str.split sep s = [s].
Proof.
  induction s as [|c s IH]; simpl; [reflexivity|].
  intros [Hc Hs]%orb_false_elim. rewrite Hc, (IH Hs). reflexivity.
Qed.

Lemma split_append (sep : ascii) (a b : string) :
  Str.contains sep a = false ->
  Str.split sep (a +:+ String sep b) = a :: Str.split sep b.
Proof.
  induction a as [|c a IH]; str_simpl.
  - now rewrite Ascii.eqb_refl.
  - intros [Hc Ha]%orb_false_elim. now rewrite Hc, (IH Ha).
Qed.

(** [split] undoes [join] when no piece holds the separator. *)
Lemma split_join (sep : ascii) (pieces : list string) :
  pieces <> [] ->
  Forall (fun p => Str.contains sep p = false) pieces ->
  Str.split sep (Str.join sep pieces) = pieces.
Proof.
  induction pieces as [|p ps IH]; [congruence|].
  intros _ Hall. inversion Hall as [|? ? Hp Hps]; subst.
  destruct ps as [|p' ps].
  - simpl. now apply split_one.
  - change (Str.join sep (p :: p' :: ps))
      with (p +:+ String sep (Str.join sep (p' :: ps))).
    rewrite split_append by exact Hp. f_equal. apply IH; [discriminate | exact Hps].
Qed.

(** ** The regular expression *)

Lemma star_without_close (post : string) :
  Str.contains "}" post = false ->
  Re.match_here re_DOTALL [Re.Many Re.Dot; Re.One (Re.Chr "}")] post = None.
Proof.
  induction post as [|c post IH]; simpl; [reflexivity|].
  intros [Hc Hp]%orb_false_elim. simpl in IH. rewrite (IH Hp), Hc. reflexivity.
Qed.

(** The greedy star stops at the last closing brace. *)
Lemma star_to_last_close (body post : string) :
  Str.contains "}" post = false ->
  Re.match_here re_DOTALL [Re.Many Re.Dot; Re.One (Re.Chr "}")]
    (body +:+ String "}" post) = Some (body +:+ String "}" EmptyString).
Proof.
  intros Hp. induction body as [|c body IH]; str_simpl.
  - pose proof (star_without_close post Hp) as Hnone.
    simpl in Hnone. now rewrite Hnone.
  - simpl in IH. now rewrite IH.
Qed.

Lemma match_needs_open (c : ascii) (s : string) :
  Ascii.eqb c "{" = false ->
  Re.match_here re_DOTALL brace_pattern (String c s) = None.
Proof. intros H. simpl. now rewrite H. Qed.

Lemma match_at_open (body post : string) :
  Str.contains "}" post = false ->
  Re.match_here re_DOTALL brace_pattern (String "{" (body +:+ String "}" post))
  = Some (String "{" (body +:+ String "}" EmptyString)).
Proof.
  intros Hp. pose proof (star_to_last_close body post Hp) as H.
  unfold brace_pattern.
  change (Re.match_here re_DOTALL
            (Re.One (Re.Chr "{") :: [Re.Many Re.Dot; Re.One (Re.Chr "}")])
            (String "{" (body +:+ String "}" post)))
    with (String "{" <$> Re.match_here re_DOTALL
            [Re.Many Re.Dot; Re.One (Re.Chr "}")] (body +:+ String "}" post)).
  now rewrite H.
Qed.

(** The search returns the text from the first opening brace to the last
    closing brace. *)
Lemma search_first_to_last (pre body post : string) :
  Str.contains "{" pre = false ->
  Str.contains "}" post = false ->
  Re.search re_DOTALL brace_pattern (pre +:+ String "{" (body +:+ String "}" post))
  = Some (String "{" (body +:+ String "}" EmptyString)).
Proof.
  intros Hpre Hpost. induction pre as [|c pre IH].
  - rewrite append_nil. cbn [Re.search].
    now rewrite (match_at_open body post Hpost).
  - apply orb_false_elim in Hpre as [Hc Hpre].
    rewrite append_cons. cbn [Re.search].
    rewrite (match_needs_open c _ Hc). now apply IH.
Qed.

Lemma match_without_pair (s : string) :
  has_brace_pair s = false -> Re.match_here re_DOTALL brace_pattern s = None.
Proof.
  destruct s as [|c s]; [reflexivity|].
  cbn [has_brace_pair]. intros [Hc _]%orb_false_elim.
  destruct (Ascii.eqb_spec c "{") as [->|Hne].
  - simpl in Hc. pose proof (star_without_close s Hc) as H.
    unfold brace_pattern.
    change (Re.match_here re_DOTALL
              (Re.One (Re.Chr "{") :: [Re.Many Re.Dot; Re.One (Re.Chr "}")])
              (String "{" s))
      with (String "{" <$> Re.match_here re_DOTALL
              [Re.Many Re.Dot; Re.One (Re.Chr "}")] s).
    now rewrite H.
  - apply match_needs_open. now apply Ascii.eqb_neq.
Qed.

(** The search fails exactly on the texts without a brace pair. *)
Lemma search_without_pair (s : string) :
  has_brace_pair s = false -> Re.search re_DOTALL brace_pattern s = None.
Proof.
  induction s as [|c s IH]; [reflexivity|].
  intros H. cbn [Re.search]. rewrite (match_without_pair _ H).
  apply IH. cbn [has_brace_pair] in H. now apply orb_false_elim in H as [_ H].
Qed.

Lemma contains_split (c : ascii) (s : string) :
  Str.contains c s = true -> exists a b, s = a +:+ String c b.
Proof.
  induction s as [|d s IH]; simpl; [discriminate|].
  destruct (Ascii.eqb_spec d c) as [->|Hne]; simpl.
  - intros _. now exists EmptyString, s.
  - intros (a & b & ->)%IH. now exists (String d a), b.
Qed.

Lemma has_brace_pair_split (s : string) :
  has_brace_pair s = true ->
  exists pre mid post, s = pre +:+ String "{" (mid +:+ String "}" post).
Proof.
  induction s as [|c s IH]; simpl; [discriminate|].
  intros [[Hc Hs]%andb_prop | Hs]%orb_prop.
  - apply Ascii.eqb_eq in Hc as ->.
    apply contains_split in Hs as (mid & post & ->).
    now exists EmptyString, mid, post.
  - apply IH in Hs as (pre & mid & post & ->).
    now exists (String c pre), mid, post.
Qed.

Lemma split_has_brace_pair (pre mid post : string) :
  has_brace_pair (pre +:+ String "{" (mid +:+ String "}" post)) = true.
Proof.
  induction pre as [|c pre IH]; str_simpl.
  - rewrite contains_append. simpl. now rewrite orb_true_r.
  - rewrite IH. apply orb_true_r.
Qed.

(** [has_brace_pair] decides whether an opening brace is followed, anywhere
    later, by a closing brace. *)
Lemma has_brace_pair_iff (s : string) :
  has_brace_pair s = true
  <-> exists pre mid post, s = pre +:+ String "{" (mid +:+ String "}" post).
Proof.
  split; [apply has_brace_pair_split|].
  intros (pre & mid & post & ->). apply split_has_brace_pair.
Qed.

Lemma no_pair_has_brace_pair (s : string) :
  (forall pre mid post, s <> pre +:+ String "{" (mid +:+ String "}" post)) ->
  has_brace_pair s = false.
Proof.
  intros H. destruct (has_brace_pair s) eqn:E; [|reflexivity].
  apply has_brace_pair_split in E as (pre & mid & post & ->).
  now specialize (H pre mid post).
Qed.

(** ** Effects *)

Lemma bind_run {A B} (c : M A) (k : A -> M B) (st : session_state) :
  (c ≫= k) st =
  match c st with
  | (Ok a, st', out) => let '(r, st'', out') := k a st' in (r, st'', out ++ out')
  | (Raise e, st', out) => (Raise e, st', out)
  end.
Proof. reflexivity. Qed.

Lemma quiet_ret {A} (a : A) : quiet (mret a).
Proof. intros st. exists (Ok a), []. split; [reflexivity | constructor]. Qed.

Lemma quiet_emit (o : output) : report_output o = true -> quiet (emit o).
Proof.
  intros Ho st. exists (Ok tt), [o]. split; [reflexivity|].
  constructor; [exact Ho | constructor].
Qed.

Lemma quiet_lift {A} (r : result A) : quiet (lift r).
Proof. intros st. exists r, []. split; [reflexivity | constructor]. Qed.

Lemma quiet_get_state : quiet get_state.
Proof. intros st. exists (Ok st), []. split; [reflexivity | constructor]. Qed.

Lemma quiet_bind {A B} (c : M A) (k : A -> M B) :
  quiet c -> (forall a, quiet (k a)) -> quiet (c ≫= k).
Proof.
  intros Hc Hk st. rewrite bind_run.
  destruct (Hc st) as (r & out & -> & Hout).
  destruct r as [a|e].
  - destruct (Hk a st) as (r' & out' & -> & Hout').
    exists r', (out ++ out'). split; [reflexivity|].
    apply Forall_app. now split.
  - now exists (Raise e), out.
Qed.

Lemma quiet_try_except {A} (body : M A) (catches : exn -> bool)
    (handler : exn -> M A) :
  quiet body -> (forall e, quiet (handler e)) ->
  quiet (try_except body catches handler).
Proof.
  intros Hb Hh st. unfold try_except.
  destruct (Hb st) as (r & out & -> & Hout).
  destruct r as [a|e]; [now exists (Ok a), out|].
  destruct (catches e); [|now exists (Raise e), out].
  destruct (Hh e st) as (r' & out' & -> & Hout').
  exists r', (out ++ out'). split; [reflexivity|].
  apply Forall_app. now split.
Qed.

Lemma quiet_for_each {A} (xs : list A) (body : A -> M unit) :
  (forall x, quiet (body x)) -> quiet (for_each xs body).
Proof.
  intros Hb. induction xs as [|x xs IH]; simpl.
  - apply quiet_ret.
  - apply quiet_bind; [apply Hb | intros _; exact IH].
Qed.

(** A [try] whose handler takes every exception and returns does not
    raise. *)
Lemma try_except_returns {A} (body : M A) (handler : exn -> M A) :
  quiet body ->
  (forall e, exists a out,
      (forall st, handler e st = (Ok a, st, out))
      /\ Forall (fun o => report_output o = true) out) ->
  forall st, exists a out,
    try_except body is_Exception handler st = (Ok a, st, out)
    /\ Forall (fun o => report_output o = true) out.
Proof.
  intros Hb Hh st. unfold try_except.
  destruct (Hb st) as (r & out & -> & Hout).
  destruct r as [a|e]; [now exists a, out|].
  destruct (Hh e) as (a & out' & -> & Hout'). simpl.
  exists a, (out ++ out'). split; [reflexivity|].
  apply Forall_app. now split.
Qed.

(** Breaks a sequence of steps down to its calls. *)
Ltac quiet_steps :=
  repeat first
    [ apply quiet_ret
    | apply quiet_lift
    | apply quiet_get_state
    | apply quiet_emit; reflexivity
    | apply quiet_bind; [|intros ?]
    | apply quiet_for_each; intros ?
    | match goal with |- quiet (if ?b then _ else _) => destruct b end ].

(** Unfolds the operations of [M] and [result], to run a piece of the
    script on a state. *)
Ltac run_steps :=
  unfold mbind, M_bind, bind, mret, M_ret, ret, emit, lift, get_state,
    result_bind, result_ret in *.

(** ** The parser and the display *)

Section Verification.

Variable json_loads : string -> value + string.
Variable capitalize : string -> string.
Variable prompt : string -> string.

Local Abbreviation parse := (parse_and_display_results json_loads capitalize).
Local Abbreviation decode := (decode_response json_loads).
Local Abbreviation display := (display_results capitalize).
Local Abbreviation try_display := (try_display_results capitalize).

(** The three attempts, case by case. *)
Lemma decode_response_cases (json_str : string) (st : session_state) :
  decode json_str st =
  match json_loads json_str with
  | inl data => (Ok (Continue data), st, [])
  | inr msg =>
      match Re.search re_DOTALL brace_pattern json_str with
      | Some cleaned =>
          match json_loads cleaned with
          | inl data =>
              (Ok (Continue data), st, [warning_json_retry (JSONDecodeError msg)])
          | inr msg2 =>
              (Ok (Return PyNone), st,
               [warning_json_retry (JSONDecodeError msg);
                error_json_final (JSONDecodeError msg2); code_raw json_str])
          end
      | None =>
          (Ok (Return PyNone), st,
           [warning_json_retry (JSONDecodeError msg); error_no_json;
            code_raw json_str])
      end
  end.
Proof.
  unfold decode_response, decode_response_with, try_except, loads.
  rewrite bind_run. unfold lift.
  destruct (json_loads json_str) as [data|msg]; [reflexivity|].
  cbn [is_JSONDecodeError]. rewrite bind_run. cbn [emit].
  destruct (Re.search re_DOTALL brace_pattern json_str) as [cleaned|];
    [|reflexivity].
  rewrite bind_run.
  destruct (json_loads cleaned) as [data|msg2]; reflexivity.
Qed.

Lemma display_item_shown (fields : list (string * value)) (tipo : string)
    (st : session_state) :
  Py.lookup "tipo" fields = Some (PyStr tipo) ->
  display_item capitalize (PyDict fields) st
  = (Ok tt, st, detail_outputs capitalize (PyDict fields)).
Proof.
  intros H. unfold display_item, detail_outputs, Py.getitem. now rewrite H.
Qed.

Lemma display_item_KeyError (fields : list (string * value)) (st : session_state) :
  Py.lookup "tipo" fields = None ->
  display_item capitalize (PyDict fields) st = (Raise (KeyError "tipo"), st, []).
Proof. intros H. unfold display_item, Py.getitem. now rewrite H. Qed.

Lemma item_renderable_inv (item : value) :
  item_renderable item = true ->
  exists fields tipo, item = PyDict fields /\ Py.lookup "tipo" fields = Some (PyStr tipo).
Proof.
  destruct item as [| | | | |?|fields]; try discriminate.
  unfold item_renderable, has_str.
  destruct (Py.lookup "tipo" fields) as [[]|] eqn:E; try discriminate.
  intros _. eauto.
Qed.

Lemma for_each_shown (items : list value) (st : session_state) :
  forallb item_renderable items = true ->
  for_each items (display_item capitalize) st
  = (Ok tt, st, concat (map (detail_outputs capitalize) items)).
Proof.
  induction items as [|item items IH]; [reflexivity|].
  intros [Hi Hr]%andb_prop.
  destruct (item_renderable_inv item Hi) as (fields & tipo & -> & Ht).
  cbn [for_each map concat]. rewrite bind_run.
  rewrite (display_item_shown fields tipo st Ht), (IH Hr). reflexivity.
Qed.

Lemma item_labels_renderable (item : value) :
  item_labelable item = true -> exists labels, item_labels item = Ok labels.
Proof.
  destruct item as [| | | | |?|fields]; try discriminate.
  unfold item_labelable, item_labels, Py.get.
  destruct (Py.lookup "tipo" fields) as [[]|]; try discriminate; intros _; eexists; reflexivity.
Qed.

Lemma item_labels_raises (item : value) :
  item_labelable item = false -> exists e, item_labels item = Raise e.
Proof.
  destruct item as [| | | | |?|fields]; try (intros _; eexists; reflexivity).
  unfold item_labelable, item_labels, Py.get.
  destruct (Py.lookup "tipo" fields) as [[]|]; try discriminate; intros _; eexists; reflexivity.
Qed.

Lemma all_biases_labelable (items : list value) (acc : list string) :
  forallb item_labelable items = true -> exists labels, all_biases acc items = Ok labels.
Proof.
  revert acc. induction items as [|item items IH]; intros acc; [now exists acc|].
  intros [Hi Hr]%andb_prop. destruct (item_labels_renderable item Hi) as (labels & E).
  cbn [all_biases]. rewrite E. apply IH, Hr.
Qed.

Lemma all_biases_raises (items : list value) (acc : list string) :
  forallb item_labelable items = false -> exists e, all_biases acc items = Raise e.
Proof.
  revert acc. induction items as [|item items IH]; intros acc; [discriminate|].
  cbn [forallb all_biases]. destruct (item_labelable item) eqn:Hi.
  - destruct (item_labels_renderable item Hi) as (labels & ->). apply IH.
  - destruct (item_labels_raises item Hi) as (e & ->). intros _. now exists e.
Qed.

Lemma renderable_labelable (item : value) :
  item_renderable item = true -> item_labelable item = true.
Proof.
  destruct item as [| | | | |?|fields]; try discriminate.
  unfold item_renderable, item_labelable, has_str.
  now destruct (Py.lookup "tipo" fields).
Qed.

Lemma for_each_KeyError (items : list value) (st : session_state) :
  forallb item_labelable items = true ->
  forallb item_renderable items = false ->
  exists out,
    for_each items (display_item capitalize) st = (Raise (KeyError "tipo"), st, out).
Proof.
  induction items as [|item items IH]; [discriminate|].
  intros [Hl Hls]%andb_prop. cbn [forallb for_each]. rewrite bind_run.
  destruct (item_renderable item) eqn:Hi.
  - destruct (item_renderable_inv item Hi) as (fields & tipo & -> & Ht).
    intros Hr. destruct (IH Hls Hr) as (out & E).
    rewrite (display_item_shown fields tipo st Ht), E. eauto.
  - intros _. destruct item as [| | | | |?|fields]; try discriminate.
    unfold item_renderable, item_labelable, has_str in *.
    destruct (Py.lookup "tipo" fields) as [v|] eqn:E; [congruence|].
    rewrite (display_item_KeyError fields st E). eauto.
Qed.

(** A renderable [dict] is displayed to the end: the report, with every
    absent key but ["tipo"] replaced by its default. *)
Lemma display_renderable (fields : list (string * value)) (st : session_state) :
  renderable (PyDict fields) = true ->
  display (PyDict fields) st
  = (Ok (PyDict fields), st, report capitalize (classificacao_tematica st) fields).
Proof.
  unfold renderable, display_results, report, field_or, Py.get.
  destruct (Py.lookup "analise" fields) as [a|] eqn:Ea.
  2:{ intros _. reflexivity. }
  destruct (Py.truthy a) eqn:Ht.
  2:{ intros _. run_steps. now rewrite Ht. }
  cbn [negb orb]. destruct a as [| | | | |items|?]; try discriminate.
  destruct items as [|item items]; [discriminate|]. clear Ht.
  intros Hr.
  assert (forallb item_labelable (item :: items) = true) as Hl.
  { clear -Hr. induction (item :: items) as [|x xs IH]; [reflexivity|].
    apply andb_prop in Hr as [H1 H2]. cbn [forallb].
    now rewrite renderable_labelable, IH. }
  destruct (all_biases_labelable _ [] Hl) as (labels & El).
  pose proof (for_each_shown _ st Hr) as Hf.
  unfold chart_outputs, bias_counts.
  run_steps. cbn [Py.truthy Py.iter negb]. rewrite El, Hf. reflexivity.
Qed.

(** Anything else makes the display raise. *)
Lemma display_not_renderable (data : value) (st : session_state) :
  renderable data = false ->
  exists e out, display data st = (Raise e, st, out).
Proof.
  destruct data as [| | | | | |fields]; try (intros _; eexists _, _; reflexivity).
  unfold renderable, display_results, Py.get.
  destruct (Py.lookup "analise" fields) as [a|] eqn:Ea; [|discriminate].
  intros [Ht Hr]%orb_false_elim. apply negb_false_iff in Ht.
  assert (Hstr : forall strs : list string, strs <> [] ->
             forallb item_labelable (map PyStr strs) = false).
  { intros [|x xs]; [congruence | reflexivity]. }
  destruct a as [|b|n|x|s|items|kv].
  - discriminate.
  - run_steps. rewrite Ht. eexists _, _; reflexivity.
  - run_steps. rewrite Ht. eexists _, _; reflexivity.
  - run_steps. rewrite Ht. eexists _, _; reflexivity.
  - destruct s as [|c s]; [discriminate|].
    destruct (all_biases_raises (map PyStr (Str.chars (String c s))) []) as (e & E);
      [reflexivity|].
    run_steps. cbn [Py.truthy Py.iter String.eqb negb]. unfold bias_counts. run_steps.
    rewrite E. eexists _, _; reflexivity.
  - destruct items as [|item items]; [discriminate|]. clear Ht.
    destruct (forallb item_labelable (item :: items)) eqn:Hl.
    + destruct (all_biases_labelable _ [] Hl) as (labels & El).
      destruct (for_each_KeyError _ st Hl Hr) as (out & Hf).
      unfold bias_counts. run_steps. cbn [Py.truthy Py.iter negb].
      rewrite El, Hf. eexists _, _; reflexivity.
    + destruct (all_biases_raises _ [] Hl) as (e & E).
      unfold bias_counts. run_steps. cbn [Py.truthy Py.iter negb].
      rewrite E. eexists _, _; reflexivity.
  - destruct kv as [|[k v] kv]; [discriminate|].
    destruct (all_biases_raises (map (fun kv => PyStr (fst kv)) ((k, v) :: kv)) [])
      as (e & E); [reflexivity|].
    unfold bias_counts. run_steps. cbn [Py.truthy Py.iter negb].
    rewrite E. eexists _, _; reflexivity.
Qed.

Lemma quiet_display_item (item : value) : quiet (display_item capitalize item).
Proof. unfold display_item. quiet_steps. Qed.

Lemma quiet_display_results (data : value) : quiet (display data).
Proof.
  unfold display_results. quiet_steps.
Qed.

Lemma try_display_renderable (fields : list (string * value))
    (st : session_state) :
  renderable (PyDict fields) = true ->
  try_display (PyDict fields) st
  = (Ok (PyDict fields), st, report capitalize (classificacao_tematica st) fields).
Proof.
  intros H. unfold try_display_results, try_except.
  now rewrite (display_renderable fields st H).
Qed.

Lemma try_display_not_renderable (data : value) (st : session_state) :
  renderable data = false ->
  exists e out,
    try_display data st = (Ok PyNone, st, out ++ [error_unexpected e]).
Proof.
  intros H. destruct (display_not_renderable data st H) as (e & out & E).
  exists e, out. unfold try_display_results, try_except. now rewrite E.
Qed.

Lemma quiet_try_display (data : value) : quiet (try_display data).
Proof.
  apply quiet_try_except; [apply quiet_display_results|].
  intros e. quiet_steps.
Qed.

(** The second [try] returns the decoded value when it is renderable and
    [None] when it is not. *)
Lemma try_display_returns (data : value) (st : session_state) :
  exists out,
    try_display data st
    = (Ok (if renderable data then data else PyNone), st, out)
    /\ Forall (fun o => report_output o = true) out.
Proof.
  destruct (quiet_try_display data st) as (r & out & E & Hout).
  exists out. split; [|exact Hout]. rewrite E. do 2 f_equal.
  destruct (renderable data) eqn:Hr.
  - destruct data as [| | | | | |fields]; try discriminate.
    rewrite (try_display_renderable fields st Hr) in E. congruence.
  - destruct (try_display_not_renderable data st Hr) as (e & out' & E').
    congruence.
Qed.

(** The whole function, case by case. *)
Lemma parse_cases (json_str : string) (st : session_state) :
  parse json_str st =
  match json_loads json_str with
  | inl data => try_display data st
  | inr msg =>
      match Re.search re_DOTALL brace_pattern json_str with
      | Some cleaned =>
          match json_loads cleaned with
          | inl data =>
              let '(r, st', out) := try_display data st in
              (r, st', warning_json_retry (JSONDecodeError msg) :: out)
          | inr msg2 =>
              (Ok PyNone, st,
               [warning_json_retry (JSONDecodeError msg);
                error_json_final (JSONDecodeError msg2); code_raw json_str])
          end
      | None =>
          (Ok PyNone, st,
           [warning_json_retry (JSONDecodeError msg); error_no_json;
            code_raw json_str])
      end
  end.
Proof.
  unfold parse_and_display_results, parse_and_display_results_with.
  fold (decode_response json_loads). rewrite bind_run, decode_response_cases.
  destruct (json_loads json_str) as [data|msg].
  - now destruct (try_display data st) as [[r st'] out].
  - destruct (Re.search re_DOTALL brace_pattern json_str) as [cleaned|];
      [|reflexivity].
    destruct (json_loads cleaned) as [data|msg2]; reflexivity.
Qed.

(** With a decoder that keeps to its contract, [parse_and_display_results]
    returns on every response, leaves the session state as it is, and emits
    outputs of the report only. *)
Lemma parse_returns (json_str : string) (st : session_state) :
  exists record out,
    parse json_str st = (Ok record, st, out)
    /\ Forall (fun o => report_output o = true) out.
Proof.
  rewrite parse_cases.
  destruct (json_loads json_str) as [data|msg].
  - destruct (try_display_returns data st) as (out & -> & Hout). eauto.
  - destruct (Re.search re_DOTALL brace_pattern json_str) as [cleaned|].
    + destruct (json_loads cleaned) as [data|msg2].
      * destruct (try_display_returns data st) as (out & -> & Hout).
        eexists _, _. split; [reflexivity | now constructor].
      * eexists _, _. split; [reflexivity | repeat constructor].
    + eexists _, _. split; [reflexivity | repeat constructor].
Qed.

Lemma finding_schema_renderable (item : value) :
  finding_matches_schema item = true -> item_renderable item = true.
Proof.
  destruct item as [| | | | | |fields]; try discriminate. simpl.
  now intros [[[H _]%andb_prop _]%andb_prop _]%andb_prop.
Qed.

Lemma schema_renderable (v : value) :
  matches_schema v = true -> renderable v = true.
Proof.
  destruct v as [| | | | | |fields]; try discriminate. simpl.
  intros [[[_ _]%andb_prop Ha]%andb_prop _]%andb_prop.
  destruct (Py.lookup "analise" fields) as [[| | | | |items|]|]; try discriminate.
  apply orb_true_iff. right.
  induction items as [|item items IH]; [reflexivity|].
  apply andb_prop in Ha as [Hi Hr]. cbn [forallb].
  now rewrite finding_schema_renderable, IH.
Qed.

Lemma detail_no_fallback (items : list value) :
  Forall (fun o => fallback_output o = false)
         (concat (map (detail_outputs capitalize) items)).
Proof.
  induction items as [|item items IH]; [constructor|].
  cbn [map concat]. apply Forall_app. split; [|exact IH].
  destruct item as [| | | | | |fields]; try constructor.
  cbn [detail_outputs].
  destruct (Py.lookup "tipo" fields) as [[]|]; repeat constructor.
Qed.

(** The report holds no output of the fallback stages. *)
Lemma report_no_fallback (t : tematica) (fields : list (string * value)) :
  Forall (fun o => fallback_output o = false) (report capitalize t fields).
Proof.
  unfold report. repeat (apply Forall_app; split);
    try (repeat constructor; fail).
  - destruct (Py.truthy _); [|constructor].
    unfold chart_outputs. destruct (bias_counts _); repeat constructor.
  - destruct (Py.truthy _); [apply detail_no_fallback | repeat constructor].
Qed.

(** C4: a response that is a valid JSON document matching the schema of the
    prompt is decoded by the first attempt; the function returns the decoded
    value, displays its report, and emits nothing of the fallback stages. *)
Theorem valid_document_first_attempt (json_str : string) (v : value)
    (st : session_state) :
  json_loads json_str = inl v ->
  matches_schema v = true ->
  exists fields,
    v = PyDict fields
    /\ decode json_str st = (Ok (Continue v), st, [])
    /\ parse json_str st
       = (Ok v, st, report capitalize (classificacao_tematica st) fields)
    /\ Forall (fun o => fallback_output o = false)
              (report capitalize (classificacao_tematica st) fields).
Proof.
  intros Hv Hs. pose proof (schema_renderable v Hs) as Hr.
  destruct v as [| | | | | |fields]; try discriminate.
  exists fields. split; [reflexivity|].
  rewrite decode_response_cases, parse_cases, Hv.
  split; [reflexivity|]. split.
  - now apply try_display_renderable.
  - apply report_no_fallback.
Qed.


(** C5: a response that fails the strict decode and has no opening brace
    followed by a closing brace ends in the reported failure of l. 143-145
    and [None]; so does one whose extracted text fails to decode
    (l. 139-141). *)
Theorem unrecoverable_response (json_str msg : string) (st : session_state) :
  json_loads json_str = inr msg ->
  (has_brace_pair json_str = false ->
   Re.search re_DOTALL brace_pattern json_str = None
   /\ parse json_str st
      = (Ok PyNone, st,
         [warning_json_retry (JSONDecodeError msg); error_no_json;
          code_raw json_str]))
  /\ (forall cleaned msg2,
         Re.search re_DOTALL brace_pattern json_str = Some cleaned ->
         json_loads cleaned = inr msg2 ->
         parse json_str st
         = (Ok PyNone, st,
            [warning_json_retry (JSONDecodeError msg);
             error_json_final (JSONDecodeError msg2); code_raw json_str])).
Proof.
  intros Hraw. split.
  - intros Hno. pose proof (search_without_pair json_str Hno) as Hs.
    split; [exact Hs|]. now rewrite parse_cases, Hraw, Hs.
  - intros cleaned msg2 Hs Hc. now rewrite parse_cases, Hraw, Hs, Hc.
Qed.

End Verification.

(** ** The decoder beyond its contract *)

Section Decoder.

Variable json_loads : string -> result value.
Variable capitalize : string -> string.

Local Abbreviation parse := (parse_and_display_results_with capitalize json_loads).
Local Abbreviation decode := (decode_response_with json_loads).
Local Abbreviation try_display := (try_display_results capitalize).

(** The three attempts for any decoder: an exception that is not a
    [JSONDecodeError] passes both handlers. *)
Lemma decode_response_with_cases (json_str : string) (st : session_state) :
  decode json_str st =
  match json_loads json_str with
  | Ok data => (Ok (Continue data), st, [])
  | Raise e =>
      if is_JSONDecodeError e then
        match Re.search re_DOTALL brace_pattern json_str with
        | Some cleaned =>
            match json_loads cleaned with
            | Ok data => (Ok (Continue data), st, [warning_json_retry e])
            | Raise e2 =>
                if is_JSONDecodeError e2 then
                  (Ok (Return PyNone), st,
                   [warning_json_retry e; error_json_final e2; code_raw json_str])
                else (Raise e2, st, [warning_json_retry e])
            end
        | None =>
            (Ok (Return PyNone), st,
             [warning_json_retry e; error_no_json; code_raw json_str])
        end
      else (Raise e, st, [])
  end.
Proof.
  unfold decode_response_with, try_except.
  rewrite bind_run. unfold lift.
  destruct (json_loads json_str) as [data|e]; [reflexivity|].
  destruct (is_JSONDecodeError e); [|reflexivity].
  rewrite bind_run. cbn [emit].
  destruct (Re.search re_DOTALL brace_pattern json_str) as [cleaned|];
    [|reflexivity].
  rewrite bind_run.
  destruct (json_loads cleaned) as [data|e2]; [reflexivity|].
  now destruct (is_JSONDecodeError e2).
Qed.

Lemma parse_with_cases (json_str : string) (st : session_state) :
  parse json_str st =
  match json_loads json_str with
  | Ok data => try_display data st
  | Raise e =>
      if is_JSONDecodeError e then
        match Re.search re_DOTALL brace_pattern json_str with
        | Some cleaned =>
            match json_loads cleaned with
            | Ok data =>
                let '(r, st', out) := try_display data st in
                (r, st', warning_json_retry e :: out)
            | Raise e2 =>
                if is_JSONDecodeError e2 then
                  (Ok PyNone, st,
                   [warning_json_retry e; error_json_final e2; code_raw json_str])
                else (Raise e2, st, [warning_json_retry e])
            end
        | None =>
            (Ok PyNone, st,
             [warning_json_retry e; error_no_json; code_raw json_str])
        end
      else (Raise e, st, [])
  end.
Proof.
  unfold parse_and_display_results_with.
  rewrite bind_run, decode_response_with_cases.
  destruct (json_loads json_str) as [data|e].
  - now destruct (try_display data st) as [[r st'] out].
  - destruct (is_JSONDecodeError e); [|reflexivity].
    destruct (Re.search re_DOTALL brace_pattern json_str) as [cleaned|];
      [|reflexivity].
    destruct (json_loads cleaned) as [data|e2]; [reflexivity|].
    now destruct (is_JSONDecodeError e2).
Qed.

(** C9: the function returns, [None] or the decoded [dict], with the
    session state as it was and outputs of the report only, on every
    response on which [json.loads] returns or raises [JSONDecodeError], at
    the first attempt and, when that fails, on the text between the braces.
    An exception of another class raised by [json.loads] is caught by
    neither handler: it leaves the function, from the first attempt with no
    output and from the second after the warning of l. 129. *)
Theorem decoder_exceptions_handled_by_class (json_str : string)
    (st : session_state) :
  (decodes_or_rejects (json_loads json_str) = true ->
   (forall e cleaned,
       json_loads json_str = Raise e ->
       Re.search re_DOTALL brace_pattern json_str = Some cleaned ->
       decodes_or_rejects (json_loads cleaned) = true) ->
   exists record out,
     parse json_str st = (Ok record, st, out)
     /\ Forall (fun o => report_output o = true) out
     /\ (record = PyNone
         \/ exists fields,
              record = PyDict fields
              /\ (json_loads json_str = Ok record
                  \/ exists e cleaned,
                       json_loads json_str = Raise e
                       /\ Re.search re_DOTALL brace_pattern json_str = Some cleaned
                       /\ json_loads cleaned = Ok record)))
  /\ (forall e,
         json_loads json_str = Raise e ->
         is_JSONDecodeError e = false ->
         parse json_str st = (Raise e, st, []))
  /\ (forall e cleaned e2,
         json_loads json_str = Raise e ->
         is_JSONDecodeError e = true ->
         Re.search re_DOTALL brace_pattern json_str = Some cleaned ->
         json_loads cleaned = Raise e2 ->
         is_JSONDecodeError e2 = false ->
         parse json_str st = (Raise e2, st, [warning_json_retry e])).
Proof.
  assert (Hshape : forall data, (if renderable data then data else PyNone) = PyNone
                     \/ exists fields, renderable data = true /\ data = PyDict fields).
  { intros data. destruct (renderable data) eqn:Hr; [|now left].
    destruct data as [| | | | | |fields]; try discriminate. right. eauto. }
  rewrite parse_with_cases. split; [|split].
  - intros Hfirst Hsecond.
    destruct (json_loads json_str) as [data|e] eqn:Hraw.
    + destruct (try_display_returns capitalize data st) as (out & -> & Hout).
      eexists _, out. split; [reflexivity|]. split; [exact Hout|].
      destruct (Hshape data) as [->|(fields & -> & ->)]; [now left|].
      right. exists fields. eauto.
    + cbn [decodes_or_rejects] in Hfirst. rewrite Hfirst.
      destruct (Re.search re_DOTALL brace_pattern json_str) as [cleaned|] eqn:Hs.
      * specialize (Hsecond e cleaned eq_refl eq_refl).
        destruct (json_loads cleaned) as [data|e2] eqn:Hc.
        -- destruct (try_display_returns capitalize data st) as (out & -> & Hout).
           eexists _, _. split; [reflexivity|]. split; [now constructor|].
           destruct (Hshape data) as [->|(fields & -> & ->)]; [now left|].
           right. exists fields. split; [reflexivity|]. right. eauto.
        -- cbn [decodes_or_rejects] in Hsecond. rewrite Hsecond.
           eexists _, _. split; [reflexivity|].
           split; [repeat constructor | now left].
      * eexists _, _. split; [reflexivity|].
        split; [repeat constructor | now left].
  - intros e He Hclass. now rewrite He, Hclass.
  - intros e cleaned e2 He Hclass Hs Hc Hclass2.
    now rewrite He, Hclass, Hs, Hc, Hclass2.
Qed.

End Decoder.

(** The decoder of the contract is the general one that raises
    [JSONDecodeError] only. *)
Lemma loads_decodes_or_rejects (json_loads : string -> value + string)
    (s : string) :
  decodes_or_rejects (loads json_loads s) = true.
Proof. unfold loads. now destruct (json_loads s). Qed.

(** ** The tally *)

Lemma value_counts_cons (l : string) (labels : list string) :
  value_counts (l :: labels)
  = <[l := S (default 0 (value_counts labels !! l))]> (value_counts labels).
Proof. reflexivity. Qed.

(** The bar of a label is as high as the label is frequent. *)
Lemma tally_value_counts (labels : list string) (label : string) :
  tally (value_counts labels) label = occurrences label labels.
Proof.
  induction labels as [|l labels IH]; [reflexivity|].
  rewrite value_counts_cons. unfold tally in *. cbn [occurrences].
  destruct (String.eqb_spec l label) as [->|Hne].
  - rewrite lookup_insert_eq. simpl. now rewrite IH.
  - rewrite lookup_insert_ne by exact Hne. now rewrite IH.
Qed.

(** A label has a row in the table exactly when it occurs. *)
Lemma value_counts_row (labels : list string) (label : string) :
  value_counts labels !! label
  = match occurrences label labels with
    | O => None
    | S n => Some (S n)
    end.
Proof.
  induction labels as [|l labels IH]; [reflexivity|].
  rewrite value_counts_cons. cbn [occurrences].
  destruct (String.eqb_spec l label) as [->|Hne].
  - rewrite lookup_insert_eq, IH. simpl.
    now destruct (occurrences label labels).
  - now rewrite lookup_insert_ne by exact Hne.
Qed.

Lemma occurrences_app (label : string) (a b : list string) :
  occurrences label (a ++ b) = occurrences label a + occurrences label b.
Proof.
  induction a as [|l a IH]; [reflexivity|].
  cbn [app occurrences]. rewrite IH. lia.
Qed.

Lemma all_biases_acc (acc : list string) (items : list value) :
  all_biases acc items
  = match all_biases [] items with
    | Ok labels => Ok (acc ++ labels)
    | Raise e => Raise e
    end.
Proof.
  revert acc. induction items as [|item items IH]; intros acc.
  - cbn [all_biases]. now rewrite app_nil_r.
  - cbn [all_biases]. destruct (item_labels item) as [labels|e]; [|reflexivity].
    cbn [mbind result_bind]. rewrite (IH (acc ++ labels)), (IH ([] ++ labels)).
    destruct (all_biases [] items); [|reflexivity].
    now rewrite app_assoc.
Qed.

Lemma all_biases_cons (item : value) (items : list value) :
  all_biases [] (item :: items)
  = match item_labels item with
    | Ok labels =>
        match all_biases [] items with
        | Ok rest => Ok (labels ++ rest)
        | Raise e => Raise e
        end
    | Raise e => Raise e
    end.
Proof.
  cbn [all_biases]. destruct (item_labels item) as [labels|e]; [|reflexivity].
  cbn [mbind result_bind]. now rewrite all_biases_acc.
Qed.

Lemma all_biases_app (xs ys : list value) :
  all_biases [] (xs ++ ys)
  = match all_biases [] xs with
    | Ok a =>
        match all_biases [] ys with
        | Ok b => Ok (a ++ b)
        | Raise e => Raise e
        end
    | Raise e => Raise e
    end.
Proof.
  induction xs as [|x xs IH]; cbn [app].
  - cbn [all_biases]. now destruct (all_biases [] ys).
  - rewrite !all_biases_cons. destruct (item_labels x) as [labels|e]; [|reflexivity].
    rewrite IH. destruct (all_biases [] xs); [|reflexivity].
    destruct (all_biases [] ys); [|reflexivity]. now rewrite app_assoc.
Qed.

(** An entry adds to each bar the number of times the label is among its
    own labels. *)
Lemma entry_counts (before after : list value) (item : value)
    (labels : list string) (counts : gmap string nat) :
  item_labels item = Ok labels ->
  bias_counts (before ++ after) = Ok counts ->
  exists counts',
    bias_counts (before ++ item :: after) = Ok counts'
    /\ forall label,
         tally counts' label = tally counts label + occurrences label labels.
Proof.
  unfold bias_counts. intros Hi. rewrite !all_biases_app, all_biases_cons, Hi.
  destruct (all_biases [] before) as [a|e]; [|discriminate].
  destruct (all_biases [] after) as [b|e]; [|discriminate].
  cbn [mbind result_bind mret result_ret]. intros [= <-].
  eexists. split; [reflexivity|]. intros label.
  rewrite !tally_value_counts, !occurrences_app. lia.
Qed.

Lemma item_labels_tipo (fields : list (string * value)) (tipo : string) :
  Py.lookup "tipo" fields = Some (PyStr tipo) ->
  item_labels (PyDict fields) = Ok (map Str.strip (Str.split "," tipo)).
Proof. intros H. unfold item_labels, Py.get. now rewrite H. Qed.

Lemma item_labels_desconhecido (fields : list (string * value)) :
  Py.lookup "tipo" fields = None ->
  item_labels (PyDict fields) = Ok ["desconhecido"].
Proof. intros H. unfold item_labels, Py.get. now rewrite H. Qed.

(** C6: the tally splits the ["tipo"] of each entry at its commas and counts
    every label: an entry adds to each bar the number of times the label is
    among its stripped pieces, and an entry of type ["gender, moral"] adds one
    to ["gender"], one to ["moral"] and nothing to any other bar. *)
Theorem comma_separated_type_counts_each_label (before after : list value)
    (fields : list (string * value)) (counts : gmap string nat) :
  bias_counts (before ++ after) = Ok counts ->
  (forall tipo,
      Py.lookup "tipo" fields = Some (PyStr tipo) ->
      exists counts',
        bias_counts (before ++ PyDict fields :: after) = Ok counts'
        /\ forall label,
             tally counts' label
             = tally counts label
               + occurrences label (map Str.strip (Str.split "," tipo)))
  /\ (Py.lookup "tipo" fields = Some (PyStr "gender, moral") ->
      exists counts',
        bias_counts (before ++ PyDict fields :: after) = Ok counts'
        /\ tally counts' "gender" = S (tally counts "gender")
        /\ tally counts' "moral" = S (tally counts "moral")
        /\ forall label,
             label <> "gender" -> label <> "moral" ->
             tally counts' label = tally counts label).
Proof.
  intros Hc. split.
  - intros tipo Ht. exact (entry_counts _ _ _ _ _ (item_labels_tipo _ _ Ht) Hc).
  - intros Ht.
    destruct (entry_counts _ _ _ _ _ (item_labels_tipo _ _ Ht) Hc) as (counts' & E & Hl).
    exists counts'. split; [exact E|].
    change (map Str.strip (Str.split "," "gender, moral")) with ["gender"; "moral"] in Hl.
    repeat split.
    + rewrite Hl. simpl. lia.
    + rewrite Hl. simpl. lia.
    + intros label Hg Hm. rewrite Hl. cbn [occurrences].
      destruct (String.eqb_spec "gender" label); [congruence|].
      destruct (String.eqb_spec "moral" label); [congruence|]. lia.
Qed.

Lemma strip_zip_padded (labels : list string) (pads : list (string * string)) :
  length pads = length labels ->
  forallb blank_pad pads = true ->
  map Str.strip (zip_with padded labels pads) = map Str.strip labels.
Proof.
  revert pads. induction labels as [|l labels IH]; intros [|pad pads]; try discriminate.
  - reflexivity.
  - cbn [length forallb zip_with map]. intros [= Hlen] [Hp Hps]%andb_prop.
    now rewrite strip_padded, IH.
Qed.

Lemma padded_no_comma (labels : list string) (pads : list (string * string)) :
  Forall (fun l => Str.contains "," l = false) labels ->
  forallb blank_pad pads = true ->
  Forall (fun p => Str.contains "," p = false) (zip_with padded labels pads).
Proof.
  intros Hl. revert pads. induction Hl as [|l labels Hc Hl IH]; intros [|pad pads];
    try constructor.
  - apply andb_prop in H as [[H1 H2]%andb_prop _]. unfold padded.
    now rewrite !contains_append, Hc, !blank_no_comma.
  - apply IH. now apply andb_prop in H as [_ H].
Qed.

(** The labels of a padded field are the stripped labels. *)
Lemma labels_of_padded (labels : list string) (pads : list (string * string)) :
  labels <> [] ->
  Forall (fun l => Str.contains "," l = false) labels ->
  length pads = length labels ->
  forallb blank_pad pads = true ->
  map Str.strip (Str.split "," (tipo_of labels pads)) = map Str.strip labels.
Proof.
  intros Hne Hl Hlen Hp. unfold tipo_of.
  rewrite split_join.
  - now apply strip_zip_padded.
  - destruct labels; [congruence|]. destruct pads; discriminate.
  - now apply padded_no_comma.
Qed.

Lemma all_biases_same_labels (before after : list value) (a b : value) :
  item_labels a = item_labels b ->
  bias_counts (before ++ a :: after) = bias_counts (before ++ b :: after).
Proof.
  intros H. unfold bias_counts. now rewrite !all_biases_app, !all_biases_cons, H.
Qed.

(** C10: the white space around the labels of a ["tipo"] does not count.
    Two entries whose fields hold the same labels, each padded with white
    space in its own way, give the same labels and, in any list of entries,
    the same table; when there is a label, the labels are the stripped ones.
    An entry without ["tipo"] has the one label ["desconhecido"] and adds one
    to that bar alone. *)
Theorem tally_ignores_padding (labels : list string)
    (padsA padsB : list (string * string))
    (fieldsA fieldsB : list (string * value)) (before after : list value) :
  Forall (fun l => Str.contains "," l = false) labels ->
  length padsA = length labels ->
  length padsB = length labels ->
  forallb blank_pad padsA = true ->
  forallb blank_pad padsB = true ->
  Py.lookup "tipo" fieldsA = Some (PyStr (tipo_of labels padsA)) ->
  Py.lookup "tipo" fieldsB = Some (PyStr (tipo_of labels padsB)) ->
  item_labels (PyDict fieldsA) = item_labels (PyDict fieldsB)
  /\ (labels <> [] -> item_labels (PyDict fieldsA) = Ok (map Str.strip labels))
  /\ bias_counts (before ++ PyDict fieldsA :: after)
     = bias_counts (before ++ PyDict fieldsB :: after)
  /\ (forall fields,
         Py.lookup "tipo" fields = None ->
         item_labels (PyDict fields) = Ok ["desconhecido"]
         /\ forall counts,
              bias_counts (before ++ after) = Ok counts ->
              exists counts',
                bias_counts (before ++ PyDict fields :: after) = Ok counts'
                /\ tally counts' "desconhecido" = S (tally counts "desconhecido")
                /\ forall label, label <> "desconhecido" ->
                     tally counts' label = tally counts label).
Proof.
  intros Hl HlenA HlenB HpA HpB HA HB.
  assert (Hsame : item_labels (PyDict fieldsA) = item_labels (PyDict fieldsB)).
  { rewrite (item_labels_tipo _ _ HA), (item_labels_tipo _ _ HB).
    destruct labels as [|l labels].
    - now destruct padsA, padsB.
    - now rewrite !labels_of_padded. }
  split; [exact Hsame|]. split; [|split].
  - intros Hne. rewrite (item_labels_tipo _ _ HA). now rewrite labels_of_padded.
  - now apply all_biases_same_labels.
  - intros fields Hnone. pose proof (item_labels_desconhecido fields Hnone) as Hd.
    split; [exact Hd|]. intros counts Hc.
    destruct (entry_counts _ _ _ _ _ Hd Hc) as (counts' & E & Hcount).
    exists counts'. split; [exact E|]. split.
    + rewrite Hcount. simpl. lia.
    + intros label Hne. rewrite Hcount. cbn [occurrences].
      destruct (String.eqb_spec "desconhecido" label); [congruence | lia].
Qed.

(** ** The page *)

Lemma count_app (p : output -> bool) (a b : list output) :
  count p (a ++ b) = count p a + count p b.
Proof. unfold count. now rewrite List.filter_app, length_app. Qed.

Lemma count_cons (p : output -> bool) (o : output) (out : list output) :
  count p (o :: out) = (if p o then 1 else 0) + count p out.
Proof. unfold count. cbn [List.filter]. now destruct (p o). Qed.

Lemma count_none (p : output -> bool) (out : list output) :
  Forall (fun o => p o = false) out -> count p out = 0.
Proof.
  induction 1 as [|o out Ho _ IH]; [reflexivity|].
  now rewrite count_cons, Ho, IH.
Qed.

Lemma report_count_none (p : output -> bool) (out : list output) :
  (forall o, report_output o = true -> p o = false) ->
  Forall (fun o => report_output o = true) out -> count p out = 0.
Proof.
  intros Hp Hout. apply count_none.
  eapply Forall_impl; [exact Hout | exact Hp].
Qed.

Lemma ends_app {A} (l1 l2 x : list A) :
  (exists b, l2 = b ++ x) -> exists b, l1 ++ l2 = b ++ x.
Proof. intros (b & ->). exists (l1 ++ b). now rewrite app_assoc. Qed.

Lemma ends_cons {A} (a : A) (l x : list A) :
  (exists b, l = b ++ x) -> exists b, a :: l = b ++ x.
Proof. intros (b & ->). now exists (a :: b). Qed.

Section Page.

Variable json_loads : string -> value + string.
Variable capitalize : string -> string.
Variable prompt : string -> string.

Local Abbreviation parse := (parse_and_display_results json_loads capitalize).
Local Abbreviation run := (page json_loads capitalize prompt).

(** What the function returns is a function of the response alone. *)
Lemma parse_record (json_str : string) (st : session_state) :
  exists out,
    parse json_str st = (Ok (record_of json_loads json_str), st, out)
    /\ Forall (fun o => report_output o = true) out.
Proof.
  rewrite parse_cases. unfold record_of.
  destruct (json_loads json_str) as [data|msg].
  - apply try_display_returns.
  - destruct (Re.search re_DOTALL brace_pattern json_str) as [cleaned|].
    + destruct (json_loads cleaned) as [data|msg2].
      * destruct (try_display_returns capitalize data st) as (out & -> & Hout).
        eexists. split; [reflexivity | now constructor].
      * eexists. split; [reflexivity | repeat constructor].
    + eexists. split; [reflexivity | repeat constructor].
Qed.

Lemma configure_gemini_run (inp : run_input) (st : session_state) :
  configure_gemini inp st = (Ok (gemini_available inp), st, configure_outputs inp).
Proof.
  unfold configure_gemini, gemini_available, configure_outputs, try_except.
  run_steps. destruct (secrets_GEMINI_API_KEY inp) as [api_key|]; [|reflexivity].
  destruct (genai_configure inp api_key) as [[]|e]; [reflexivity|].
  cbn [is_Exception]. now destruct (is_KeyError e).
Qed.

Lemma extract_text_from_pdf_run (inp : run_input) (uploaded_file : upload)
    (st : session_state) :
  extract_text_from_pdf inp true uploaded_file st
  = (Ok (extracted_text inp uploaded_file), st, extract_outputs inp uploaded_file).
Proof.
  unfold extract_text_from_pdf, extracted_text, extract_outputs, try_except.
  run_steps. cbn [negb]. now destruct (fitz_pages inp uploaded_file).
Qed.

Lemma analyze_with_gemini_run (inp : run_input) (text : string)
    (st : session_state) :
  analyze_with_gemini prompt inp (gemini_available inp) text st
  = (Ok (analysis_reply prompt inp text), st, gemini_outputs prompt inp text).
Proof.
  unfold analyze_with_gemini, analysis_reply, gemini_outputs, try_except.
  run_steps. destruct (gemini_available inp); [|reflexivity]. cbn [negb].
  now destruct (model_response inp (prompt text)).
Qed.

(** l. 262-269 on a state that holds the extracted text. *)
Lemma analisar_run (inp : run_input) (text : string) (st : session_state) :
  original_text st = Some text ->
  exists shown,
    analisar json_loads capitalize prompt inp (gemini_available inp) st
    = (Ok tt,
       if click_analisar inp
       then with_parsed_data (analysis_record json_loads prompt inp text) st
       else st,
       button_analisar (click_analisar inp)
       :: if click_analisar inp
          then spinner_analisando :: gemini_outputs prompt inp text ++ shown
          else [])
    /\ Forall (fun o => report_output o = true) shown.
Proof.
  intros Ht. unfold analisar, analysis_record.
  destruct (click_analisar inp).
  2:{ exists []. split; [reflexivity | constructor]. }
  pose proof (analyze_with_gemini_run inp text (with_parsed_data PyNone st)) as Hg.
  unfold set_parsed_data. run_steps.
  change (original_text (with_parsed_data PyNone st)) with (original_text st).
  rewrite Ht. change (default EmptyString (Some text)) with text. rewrite Hg.
  destruct (analysis_reply prompt inp text) as [response|] eqn:Hr; cbn [text_truthy].
  - change (default EmptyString (Some response)) with response.
    destruct (String.eqb response EmptyString) eqn:He; cbn [negb].
    + exists []. split; [|constructor]. now rewrite !app_nil_r.
    + destruct (parse_record response (with_parsed_data PyNone st))
        as (shown & Hp & Hshown).
      exists shown. split; [|exact Hshown].
      rewrite Hp. cbn -[gemini_outputs]. now rewrite app_nil_r.
  - exists []. split; [|constructor]. now rewrite !app_nil_r.
Qed.

Lemma download_pdf_run (inp : run_input) (st : session_state) :
  download_pdf inp st = (Ok tt, download_state inp st, download_outputs inp st).
Proof.
  unfold download_pdf, download_state, download_outputs, set_printing.
  run_steps. destruct (Py.truthy (parsed_data st)); [|reflexivity].
  destruct (click_download_pdf inp); [reflexivity|].
  cbn [orb andb]. now destruct (printing st).
Qed.

Lemma page_without_fitz (inp : run_input) (st : session_state) :
  fitz_installed inp = false -> run inp st = (Ok tt, st, [error_fitz_missing]).
Proof. intros H. unfold page. now rewrite H. Qed.

Lemma page_without_upload (inp : run_input) (st : session_state) :
  fitz_installed inp = true ->
  file_uploader inp = None ->
  run inp st
  = (Ok tt, with_classificacao_tematica (selectbox inp) st,
     page_head inp ++ [info_envie_pdf]).
Proof.
  intros Hf Hu. unfold page, page_head. rewrite Hf, Hu. cbn [negb].
  pose proof (configure_gemini_run inp st) as Hc.
  unfold set_classificacao_tematica. run_steps. rewrite Hc.
  cbn -[configure_outputs]. now rewrite <- app_assoc.
Qed.

Lemma page_with_empty_text (inp : run_input) (uploaded_file : upload)
    (st : session_state) :
  fitz_installed inp = true ->
  file_uploader inp = Some uploaded_file ->
  extracted_text inp uploaded_file = EmptyString ->
  run inp st
  = (Ok tt,
     with_original_text (Some EmptyString)
       (with_classificacao_tematica (selectbox inp) st),
     page_head inp
     ++ spinner_extraindo :: extract_outputs inp uploaded_file
     ++ [warning_texto_vazio]).
Proof.
  intros Hf Hu Ht. unfold page, page_head. rewrite Hf, Hu. cbn [negb].
  pose proof (configure_gemini_run inp st) as Hc.
  pose proof (extract_text_from_pdf_run inp uploaded_file
                (with_classificacao_tematica (selectbox inp) st)) as He.
  rewrite Ht in He.
  unfold set_classificacao_tematica, set_original_text. run_steps.
  rewrite Hc, He. cbn -[configure_outputs extract_outputs].
  rewrite <- !app_assoc. reflexivity.
Qed.

Lemma page_with_text (inp : run_input) (uploaded_file : upload)
    (st : session_state) :
  fitz_installed inp = true ->
  file_uploader inp = Some uploaded_file ->
  extracted_text inp uploaded_file <> EmptyString ->
  let text := extracted_text inp uploaded_file in
  let st2 := with_original_text (Some text)
               (with_classificacao_tematica (selectbox inp) st) in
  let st3 := if click_analisar inp
             then with_parsed_data (analysis_record json_loads prompt inp text) st2
             else st2 in
  exists shown,
    run inp st
    = (Ok tt, download_state inp st3,
       page_head inp
       ++ spinner_extraindo :: extract_outputs inp uploaded_file
       ++ [success_extraido; text_area_original text;
           button_analisar (click_analisar inp)]
       ++ (if click_analisar inp
           then spinner_analisando :: gemini_outputs prompt inp text ++ shown
           else [])
       ++ download_outputs inp st3)
    /\ Forall (fun o => report_output o = true) shown.
Proof.
  intros Hf Hu Ht text st2 st3. unfold page, page_head. rewrite Hf, Hu. cbn [negb].
  pose proof (configure_gemini_run inp st) as Hc.
  pose proof (extract_text_from_pdf_run inp uploaded_file
                (with_classificacao_tematica (selectbox inp) st)) as He.
  destruct (analisar_run inp text st2 eq_refl) as (shown & Ha & Hshown).
  pose proof (download_pdf_run inp st3) as Hd.
  exists shown. split; [|exact Hshown].
  apply String.eqb_neq in Ht.
  unfold set_classificacao_tematica, set_original_text. run_steps.
  rewrite Hc, He. fold text. fold st2.
  change (original_text st2) with (Some text). cbn [text_truthy].
  fold text in Ht. rewrite Ht. cbn [negb]. rewrite Ha. fold st3. rewrite Hd.
  change (default EmptyString (Some text)) with text.
  cbn -[configure_outputs extract_outputs gemini_outputs download_outputs
        download_state].
  rewrite <- !app_assoc. cbn [app]. rewrite ?app_nil_r. reflexivity.
Qed.

Lemma count_configure (p : output -> bool) (inp : run_input) :
  p error_key_missing = false ->
  (forall e, p (error_configure e) = false) ->
  count p (configure_outputs inp) = 0.
Proof.
  intros Hk He. apply count_none. unfold configure_outputs.
  destruct (secrets_GEMINI_API_KEY inp) as [api_key|]; [|repeat constructor; exact Hk].
  destruct (genai_configure inp api_key) as [|e]; [constructor|].
  destruct (is_KeyError e); repeat constructor; auto.
Qed.

Lemma count_page_head (p : output -> bool) (inp : run_input) :
  p set_page_config = false -> p error_key_missing = false ->
  (forall e, p (error_configure e) = false) ->
  p title = false -> p write_intro = false -> p sidebar_header = false ->
  count p (page_head inp) = 0.
Proof.
  intros H1 H2 H3 H4 H5 H6. unfold page_head.
  rewrite count_cons, count_app, !count_cons, count_configure by assumption.
  now rewrite H1, H4, H5, H6.
Qed.

Lemma count_extract (p : output -> bool) (inp : run_input) (uploaded_file : upload) :
  (forall e, p (error_pdf e) = false) ->
  count p (extract_outputs inp uploaded_file) = 0.
Proof.
  intros He. apply count_none. unfold extract_outputs.
  destruct (fitz_pages inp uploaded_file); repeat constructor; auto.
Qed.

Lemma count_gemini (p : output -> bool) (inp : run_input) (text : string) :
  (forall e, p (error_gemini e) = false) ->
  count p (gemini_outputs prompt inp text)
  = if gemini_available inp && p (generate_content (prompt text)) then 1 else 0.
Proof.
  intros He. unfold gemini_outputs.
  destruct (gemini_available inp); [|reflexivity].
  rewrite count_cons. cbn [andb].
  destruct (model_response inp (prompt text)) as [|e].
  - now destruct (p _).
  - rewrite count_cons, He. now destruct (p _).
Qed.

Lemma parsed_data_download_state (inp : run_input) (st : session_state) :
  parsed_data (download_state inp st) = parsed_data st.
Proof. unfold download_state. now destruct (_ && _). Qed.

Lemma original_text_download_state (inp : run_input) (st : session_state) :
  original_text (download_state inp st) = original_text st.
Proof. unfold download_state. now destruct (_ && _). Qed.

(** Solves the side conditions of the counting lemmas. *)
Ltac no_such_output :=
  first [ reflexivity
        | intros ?; reflexivity
        | let o := fresh in intros o; destruct o; (reflexivity || discriminate) ].

(** Counts the outputs of a run segment by segment. *)
Ltac count_segments :=
  repeat (rewrite count_app || rewrite count_cons);
  rewrite ?count_page_head, ?count_extract, ?count_gemini by no_such_output.

(** The analyze button is shown only above a stored text that is not empty,
    and the model is called only from the button. *)
Lemma analysis_needs_text (inp : run_input) (st : session_state) :
  count is_button_analisar (outputs_of (run inp st))
  = (if analisar_reached inp then 1 else 0)
  /\ count is_generate_content (outputs_of (run inp st))
     = (if analisar_activated inp && gemini_available inp then 1 else 0)
  /\ (analisar_reached inp = true ->
      original_text (state_after (run inp st)) = Some (uploaded_text inp)
      /\ uploaded_text inp <> EmptyString).
Proof.
  unfold analisar_activated, analisar_reached, uploaded_text.
  destruct (fitz_installed inp) eqn:Hf.
  2:{ rewrite (page_without_fitz inp st Hf). split; [|split]; [reflexivity | reflexivity | discriminate]. }
  destruct (file_uploader inp) as [uploaded_file|] eqn:Hu.
  2:{ rewrite (page_without_upload inp st Hf Hu). cbn [outputs_of snd andb negb String.eqb].
      count_segments. split; [|split]; [reflexivity | reflexivity | discriminate]. }
  destruct (String.eqb_spec (extracted_text inp uploaded_file) EmptyString) as [Ht|Ht].
  - rewrite (page_with_empty_text inp uploaded_file st Hf Hu Ht).
    rewrite Ht. cbn [outputs_of snd andb negb String.eqb]. count_segments.
    split; [|split]; [reflexivity | reflexivity | discriminate].
  - destruct (page_with_text inp uploaded_file st Hf Hu Ht) as (shown & -> & Hshown).
    cbn [outputs_of state_after fst snd andb negb].
    rewrite original_text_download_state.
    assert (Hd : forall p st', (forall b, p (button_download_pdf b) = false) ->
                   p div_download_open = false -> p markdown_rule = false ->
                   p subheader_salvar = false -> p paragraph_salvar = false ->
                   p div_download_close = false -> p print_css = false ->
                   p print_script = false -> count p (download_outputs inp st') = 0).
    { intros p st' H1 H2 H3 H4 H5 H6 H7 H8. apply count_none. unfold download_outputs.
      destruct (Py.truthy _); [|constructor]. apply Forall_app. split.
      - repeat constructor; auto.
      - destruct (_ || _); repeat constructor; auto. }
    split; [|split].
    + count_segments. rewrite Hd by no_such_output.
      destruct (click_analisar inp).
      * count_segments. rewrite (report_count_none _ shown) by (exact Hshown || no_such_output).
        cbn. now rewrite andb_false_r.
      * reflexivity.
    + count_segments. rewrite Hd by no_such_output.
      destruct (click_analisar inp).
      * count_segments. rewrite (report_count_none _ shown) by (exact Hshown || no_such_output).
        cbn. rewrite andb_true_r. destruct (gemini_available inp); reflexivity.
      * reflexivity.
    + intros _. split; [|exact Ht]. now destruct (click_analisar inp).
Qed.

Lemma count_download (p : output -> bool) (inp : run_input) (st : session_state) :
  p div_download_open = false -> p markdown_rule = false ->
  p subheader_salvar = false -> p paragraph_salvar = false ->
  p div_download_close = false ->
  count p (download_outputs inp st)
  = if Py.truthy (parsed_data st) then
      (if p (button_download_pdf (click_download_pdf inp)) then 1 else 0)
      + (if click_download_pdf inp || printing st
         then (if p print_css then 1 else 0) + (if p print_script then 1 else 0)
         else 0)
    else 0.
Proof.
  intros H1 H2 H3 H4 H5. unfold download_outputs.
  destruct (Py.truthy _); [|reflexivity].
  repeat (rewrite count_app || rewrite count_cons). rewrite H1, H2, H3, H4, H5.
  destruct (_ || _); repeat rewrite count_cons; cbn [count List.filter length]; lia.
Qed.

(** C2, as amended: the record in the session state is left as it is by a
    run in which the analyze button is not activated.  A run in which it is
    activated first clears the record (l. 263) and leaves what this analysis
    gives, whatever was held before: the returned record, or [None] when the
    call gives no text or the response gives no record.  The button returns
    [True] once in such a run and in no other. *)
Theorem parsed_data_lifecycle (inp : run_input) (st : session_state) :
  parsed_data (state_after (run inp st))
  = (if analisar_activated inp
     then analysis_record json_loads prompt inp (uploaded_text inp)
     else parsed_data st)
  /\ count is_analisar_click (outputs_of (run inp st))
     = (if analisar_activated inp then 1 else 0).
Proof.
  unfold analisar_activated, analisar_reached, uploaded_text.
  destruct (fitz_installed inp) eqn:Hf.
  2:{ rewrite (page_without_fitz inp st Hf). now split. }
  destruct (file_uploader inp) as [uploaded_file|] eqn:Hu.
  2:{ rewrite (page_without_upload inp st Hf Hu).
      cbn [outputs_of state_after fst snd]. count_segments. now split. }
  destruct (String.eqb_spec (extracted_text inp uploaded_file) EmptyString) as [Ht|Ht].
  - rewrite (page_with_empty_text inp uploaded_file st Hf Hu Ht).
    cbn [outputs_of state_after fst snd]. count_segments. now split.
  - destruct (page_with_text inp uploaded_file st Hf Hu Ht) as (shown & -> & Hshown).
    cbn [outputs_of state_after fst snd andb negb].
    rewrite parsed_data_download_state. count_segments.
    rewrite count_download by reflexivity.
    destruct (click_analisar inp).
    + count_segments.
      rewrite (report_count_none _ shown) by (exact Hshown || no_such_output).
      split; [reflexivity|]. cbn. rewrite andb_false_r.
      destruct (Py.truthy _); [|reflexivity]. now destruct (_ || _).
    + split; [reflexivity|]. cbn.
      destruct (Py.truthy _); [|reflexivity]. now destruct (_ || _).
Qed.

(** The flag of the print block does not outlive a run. *)
Lemma page_resets_flag (inp : run_input) (st : session_state) :
  printing st = false -> printing (state_after (run inp st)) = false.
Proof.
  intros Hp. destruct (fitz_installed inp) eqn:Hf.
  2:{ now rewrite (page_without_fitz inp st Hf). }
  destruct (file_uploader inp) as [uploaded_file|] eqn:Hu.
  2:{ now rewrite (page_without_upload inp st Hf Hu). }
  destruct (String.eqb_spec (extracted_text inp uploaded_file) EmptyString) as [Ht|Ht].
  - now rewrite (page_with_empty_text inp uploaded_file st Hf Hu Ht).
  - destruct (page_with_text inp uploaded_file st Hf Hu Ht) as (shown & -> & _).
    cbn [state_after fst snd]. unfold download_state.
    destruct (_ && _); [reflexivity|]. now destruct (click_analisar inp).
Qed.


(** From a new session on, the flag is false at the end of every run. *)
Lemma session_printing (runs : list run_input) (st : session_state) :
  printing st = false ->
  Forall (fun r => printing (fst r) = false)
         (session json_loads capitalize prompt runs st).
Proof.
  revert st. induction runs as [|inp runs IH]; intros st Hp; [constructor|].
  cbn [session]. pose proof (page_resets_flag inp st Hp) as Hq.
  constructor; [exact Hq | now apply IH].
Qed.

(** C8: when the text extracted in a run is empty, the run stores the empty
    text, ends with the warning of l. 338, shows no analyze button and makes
    no call to the model; the record in the session state is not touched. *)
Theorem empty_text_blocks_analysis (inp : run_input) (uploaded_file : upload)
    (st : session_state) :
  fitz_installed inp = true ->
  file_uploader inp = Some uploaded_file ->
  extracted_text inp uploaded_file = EmptyString ->
  original_text (state_after (run inp st)) = Some EmptyString
  /\ parsed_data (state_after (run inp st)) = parsed_data st
  /\ (exists before, outputs_of (run inp st) = before ++ [warning_texto_vazio])
  /\ count is_warning_texto_vazio (outputs_of (run inp st)) = 1
  /\ count is_button_analisar (outputs_of (run inp st)) = 0
  /\ count is_generate_content (outputs_of (run inp st)) = 0.
Proof.
  intros Hf Hu Ht. rewrite (page_with_empty_text inp uploaded_file st Hf Hu Ht).
  cbn [state_after outputs_of fst snd].
  split; [reflexivity|]. split; [reflexivity|]. split.
  - apply ends_app, ends_cons, ends_app. now exists [].
  - count_segments. now repeat split.
Qed.

End Page.

(** ** The theorems on concrete responses and runs *)

Example conforming_response_decodes :
  Json.loads conforming_response = inl conforming_record.
Proof. vm_compute. reflexivity. Qed.

Lemma valid_document_first_attempt_witness :
  Json.loads conforming_response = inl conforming_record
  /\ matches_schema conforming_record = true
  /\ exists fields,
       conforming_record = PyDict fields
       /\ decode_response Json.loads conforming_response fresh_session
          = (Ok (Continue conforming_record), fresh_session, [])
       /\ parse_and_display_results Json.loads AsciiCase.capitalize
            conforming_response fresh_session
          = (Ok conforming_record, fresh_session,
             report AsciiCase.capitalize NaoClassificado fields)
       /\ Forall (fun o => fallback_output o = false)
                 (report AsciiCase.capitalize NaoClassificado fields).
Proof.
  split; [vm_compute; reflexivity|]. split; [vm_compute; reflexivity|].
  apply (valid_document_first_attempt Json.loads AsciiCase.capitalize
           conforming_response conforming_record fresh_session);
    vm_compute; reflexivity.
Defined.



Lemma unrecoverable_response_witness :
  Json.loads "Desculpe, nao consegui analisar." = inr "Expecting value"
  /\ has_brace_pair "Desculpe, nao consegui analisar." = false
  /\ parse_and_display_results Json.loads AsciiCase.capitalize
       "Desculpe, nao consegui analisar." fresh_session
     = (Ok PyNone, fresh_session,
        [warning_json_retry (JSONDecodeError "Expecting value"); error_no_json;
         code_raw "Desculpe, nao consegui analisar."])
  /\ Json.loads "Resultado: {vies: alto}" = inr "Expecting value"
  /\ Re.search re_DOTALL brace_pattern "Resultado: {vies: alto}"
     = Some "{vies: alto}"
  /\ Json.loads "{vies: alto}"
     = inr "Expecting property name enclosed in double quotes"
  /\ parse_and_display_results Json.loads AsciiCase.capitalize
       "Resultado: {vies: alto}" fresh_session
     = (Ok PyNone, fresh_session,
        [warning_json_retry (JSONDecodeError "Expecting value");
         error_json_final
           (JSONDecodeError "Expecting property name enclosed in double quotes");
         code_raw "Resultado: {vies: alto}"]).
Proof.
  split; [vm_compute; reflexivity|]. split; [vm_compute; reflexivity|].
  split.
  { apply (unrecoverable_response Json.loads AsciiCase.capitalize
             "Desculpe, nao consegui analisar." "Expecting value" fresh_session);
      vm_compute; reflexivity. }
  do 3 (split; [vm_compute; reflexivity|]).
  destruct (unrecoverable_response Json.loads AsciiCase.capitalize
              "Resultado: {vies: alto}" "Expecting value" fresh_session
              ltac:(vm_compute; reflexivity)) as [_ Hfinal].
  apply (Hfinal "{vies: alto}"); vm_compute; reflexivity.
Defined.

Lemma comma_separated_type_counts_each_label_witness :
  bias_counts ([] ++ [PyDict [("tipo", PyStr "gender")]])
  = Ok (value_counts ["gender"])
  /\ Py.lookup "tipo" [("tipo", PyStr "gender, moral")]
     = Some (PyStr "gender, moral")
  /\ exists counts',
       bias_counts ([] ++ PyDict [("tipo", PyStr "gender, moral")]
                       :: [PyDict [("tipo", PyStr "gender")]]) = Ok counts'
       /\ tally counts' "gender" = S (tally (value_counts ["gender"]) "gender")
       /\ tally counts' "moral" = S (tally (value_counts ["gender"]) "moral")
       /\ forall label,
            label <> "gender" -> label <> "moral" ->
            tally counts' label = tally (value_counts ["gender"]) label.
Proof.
  split; [reflexivity|]. split; [reflexivity|].
  apply (comma_separated_type_counts_each_label []
           [PyDict [("tipo", PyStr "gender")]]
           [("tipo", PyStr "gender, moral")] (value_counts ["gender"]));
    reflexivity.
Defined.

Lemma tally_ignores_padding_witness :
  Forall (fun l => Str.contains "," l = false) ["gender"; "moral"]
  /\ tipo_of ["gender"; "moral"] [("", ""); (" ", "")] = "gender, moral"
  /\ tipo_of ["gender"; "moral"] [("", " "); ("  ", "")] = "gender ,  moral"
  /\ item_labels (PyDict [("tipo", PyStr "gender, moral")])
     = item_labels (PyDict [("tipo", PyStr "gender ,  moral")])
  /\ bias_counts ([] ++ PyDict [("tipo", PyStr "gender, moral")] :: [])
     = bias_counts ([] ++ PyDict [("tipo", PyStr "gender ,  moral")] :: []).
Proof.
  split; [repeat constructor|]. split; [reflexivity|]. split; [reflexivity|].
  destruct (tally_ignores_padding ["gender"; "moral"]
              [("", ""); (" ", "")] [("", " "); ("  ", "")]
              [("tipo", PyStr "gender, moral")]
              [("tipo", PyStr "gender ,  moral")] [] []
              ltac:(repeat constructor) eq_refl eq_refl eq_refl eq_refl
              eq_refl eq_refl)
    as (Hlabels & _ & Hcounts & _).
  split; [exact Hlabels | exact Hcounts].
Defined.


Lemma empty_text_blocks_analysis_witness :
  fitz_installed blank_pdf_run = true
  /\ file_uploader blank_pdf_run = Some "%PDF-1.7"
  /\ extracted_text blank_pdf_run "%PDF-1.7" = EmptyString
  /\ click_analisar blank_pdf_run = true
  /\ count is_warning_texto_vazio
       (outputs_of (page Json.loads AsciiCase.capitalize example_prompt
                      blank_pdf_run fresh_session)) = 1
  /\ count is_button_analisar
       (outputs_of (page Json.loads AsciiCase.capitalize example_prompt
                      blank_pdf_run fresh_session)) = 0
  /\ count is_generate_content
       (outputs_of (page Json.loads AsciiCase.capitalize example_prompt
                      blank_pdf_run fresh_session)) = 0.
Proof.
  do 4 (split; [reflexivity|]).
  destruct (empty_text_blocks_analysis Json.loads AsciiCase.capitalize
              example_prompt blank_pdf_run "%PDF-1.7" fresh_session
              eq_refl eq_refl eq_refl)
    as (_ & _ & _ & Hwarn & Hbutton & Hcall).
  split; [exact Hwarn|]. split; [exact Hbutton | exact Hcall].
Defined.

(** C2, as the claim states it, fails: a session holds the record of an
    earlier analysis, the analyze button is clicked, and the call to the
    model fails, or the response holds no JSON; after the run the session
    holds [None], not the earlier record. *)
Lemma failed_analysis_loses_record :
  parsed_data session_with_record = conforming_record
  /\ analysis_reply example_prompt failing_call_run "A re nao merece credito." = None
  /\ parsed_data (state_after (page Json.loads AsciiCase.capitalize example_prompt
                                 failing_call_run session_with_record)) = PyNone
  /\ parsed_data (state_after (page Json.loads AsciiCase.capitalize example_prompt
                                 failing_call_run session_with_record))
     <> parsed_data session_with_record
  /\ parsed_data (state_after (page Json.loads AsciiCase.capitalize example_prompt
                                 unparseable_reply_run session_with_record)) = PyNone
  /\ parsed_data (state_after (page Json.loads AsciiCase.capitalize example_prompt
                                 unparseable_reply_run session_with_record))
     <> parsed_data session_with_record.
Proof.
  repeat split; try (vm_compute; reflexivity); vm_compute; discriminate.
Qed.

(** C3: the defaults are there for every key but one.  The empty object is
    displayed with ["N/A"] and the two fixed texts; an entry without
    ["tipo"] is counted under ["desconhecido"] by the first loop (l. 162) and
    then stops the display at l. 194 with [KeyError]: the error is shown and
    the function returns [None] instead of the record. *)
Theorem missing_tipo_discards_record :
  parse_and_display_results Json.loads AsciiCase.capitalize "{}" fresh_session
  = (Ok (PyDict []), fresh_session,
     [columns_1_3; metric_vies (PyStr "N/A"); markdown_tematica NaoClassificado;
      heading_relatorio; info (PyStr relatorio_nao_disponivel);
      heading_detalhamento; info_nenhum_vies; heading_texto_reescrito;
      expander_reescrito; code_plaintext (PyStr reescrita_nao_disponivel)])
  /\ Json.loads missing_tipo_response = inl missing_tipo_record
  /\ parse_and_display_results Json.loads AsciiCase.capitalize
       missing_tipo_response fresh_session
     = (Ok PyNone, fresh_session,
        [columns_1_3; metric_vies (PyStr "N/A"); markdown_tematica NaoClassificado;
         markdown_rule; heading_distribuicao;
         altair_chart (value_counts ["desconhecido"]); markdown_rule;
         heading_relatorio; info (PyStr relatorio_nao_disponivel);
         heading_detalhamento; error_unexpected (KeyError "tipo")]).
Proof. repeat split; vm_compute; reflexivity. Qed.

Lemma decoder_exceptions_handled_by_class_witness :
  decodes_or_rejects (Json.loads_limited wrapped_missing_tipo_response) = true
  /\ Re.search re_DOTALL brace_pattern wrapped_missing_tipo_response
     = Some missing_tipo_response
  /\ decodes_or_rejects (Json.loads_limited missing_tipo_response) = true
  /\ exists record out,
       parse_and_display_results_with AsciiCase.capitalize Json.loads_limited
         wrapped_missing_tipo_response fresh_session
       = (Ok record, fresh_session, out)
       /\ Forall (fun o => report_output o = true) out.
Proof.
  split; [vm_compute; reflexivity|]. split; [vm_compute; reflexivity|].
  split; [vm_compute; reflexivity|].
  destruct (decoder_exceptions_handled_by_class Json.loads_limited
              AsciiCase.capitalize wrapped_missing_tipo_response fresh_session)
    as (Hreturns & _).
  destruct Hreturns as (record & out & Hrun & Hout & _).
  - vm_compute; reflexivity.
  - intros e cleaned _ Hs. vm_compute in Hs. injection Hs as <-.
    vm_compute; reflexivity.
  - now exists record, out.
Defined.

(** C9, as the claim states it, fails: on a response that is one integer
    of 4301 digits [json.loads] raises [ValueError], which neither handler
    catches, and the exception leaves the function before any output. *)
Lemma long_integer_leaves_the_function :
  String.length long_integer_response = 4301
  /\ Json.loads_limited long_integer_response
     = Raise (ValueError "Exceeds the limit for integer string conversion")
  /\ parse_and_display_results_with AsciiCase.capitalize Json.loads_limited
       long_integer_response fresh_session
     = (Raise (ValueError "Exceeds the limit for integer string conversion"),
        fresh_session, []).
Proof.
  repeat split; vm_compute; reflexivity.
Qed.

(** * Further properties *)

(** ** The search of the fallback stage *)

Lemma first_open (s : string) :
  Str.contains "{" s = true ->
  exists pre rest,
    s = pre +:+ String "{" rest /\ Str.contains "{" pre = false.
Proof.
  induction s as [|c s IH]; simpl; [discriminate|].
  destruct (Ascii.eqb_spec c "{") as [->|Hne]; simpl.
  - intros _. now exists EmptyString, s.
  - intros (pre & rest & -> & Hpre)%IH. exists (String c pre), rest.
    split; [reflexivity|]. simpl. rewrite Hpre.
    now apply Ascii.eqb_neq in Hne as ->.
Qed.

Lemma last_close (s : string) :
  Str.contains "}" s = true ->
  exists body post,
    s = body +:+ String "}" post /\ Str.contains "}" post = false.
Proof.
  induction s as [|c s IH]; simpl; [discriminate|].
  destruct (Str.contains "}" s) eqn:Hs.
  - intros _. destruct (IH eq_refl) as (body & post & -> & Hpost).
    now exists (String c body), post.
  - rewrite orb_false_r. intros ->%Ascii.eqb_eq. now exists EmptyString, s.
Qed.

Lemma has_brace_pair_close (s : string) :
  has_brace_pair s = true -> Str.contains "}" s = true.
Proof.
  induction s as [|c s IH]; simpl; [discriminate|].
  intros [[_ H]%andb_prop | H%IH]%orb_prop; rewrite H; apply orb_true_r.
Qed.

(** A text with a brace pair splits at its first opening brace and its last
    closing brace. *)
Lemma outermost_braces (s : string) :
  has_brace_pair s = true ->
  exists pre body post,
    s = pre +:+ String "{" (body +:+ String "}" post)
    /\ Str.contains "{" pre = false
    /\ Str.contains "}" post = false.
Proof.
  induction s as [|c s IH]; simpl; [discriminate|].
  destruct (Ascii.eqb_spec c "{") as [->|Hne]; cbn [andb orb].
  - intros H.
    assert (Hc : Str.contains "}" s = true).
    { apply orb_prop in H as [H|H]; [exact H | now apply has_brace_pair_close]. }
    destruct (last_close s Hc) as (body & post & -> & Hpost).
    now exists EmptyString, body, post.
  - intros (pre & body & post & -> & Hpre & Hpost)%IH.
    exists (String c pre), body, post. split; [reflexivity|].
    split; [|exact Hpost]. simpl. rewrite Hpre.
    now apply Ascii.eqb_neq in Hne as ->.
Qed.

(** X1: the search of l. 132 finds a match exactly when some opening brace
    has a closing brace after it, and the match is then the text from the
    first opening brace of the response to its last closing brace. *)
Theorem search_outermost_braces (s : string) :
  match Re.search re_DOTALL brace_pattern s with
  | Some cleaned =>
      has_brace_pair s = true
      /\ exists pre body post,
           s = pre +:+ String "{" (body +:+ String "}" post)
           /\ cleaned = String "{" (body +:+ String "}" EmptyString)
           /\ Str.contains "{" pre = false
           /\ Str.contains "}" post = false
  | None => has_brace_pair s = false
  end.
Proof.
  destruct (has_brace_pair s) eqn:Hp.
  - destruct (outermost_braces s Hp) as (pre & body & post & E & Hpre & Hpost).
    subst s. rewrite (search_first_to_last pre body post Hpre Hpost).
    split; [reflexivity|]. now exists pre, body, post.
  - now rewrite (search_without_pair s Hp).
Qed.

(** ** What the function returns, and when *)

Section Returned.

Variable json_loads : string -> value + string.
Variable capitalize : string -> string.

Local Abbreviation parse := (parse_and_display_results json_loads capitalize).

(** X2: a response that decodes to anything but a [dict] (a list, a number,
    a string, [null]) is not displayed: after the columns the first
    [data.get] raises [AttributeError], the error is shown and the function
    returns [None]. *)
Theorem non_dict_response_returns_none (json_str : string) (v : value)
    (st : session_state) :
  json_loads json_str = inl v ->
  is_dict v = false ->
  parse json_str st
  = (Ok PyNone, st, [columns_1_3; error_unexpected (AttributeError v "get")]).
Proof.
  intros Hv Hd. rewrite parse_cases, Hv.
  destruct v; try discriminate; reflexivity.
Qed.

(** X3: for a response that decodes at the first attempt, the function
    returns the decoded value exactly when the value is renderable, and then
    its outputs are the report; otherwise it returns [None] and its last
    output is the error of l. 216. *)
Theorem record_returned_iff_displayed (json_str : string) (data : value)
    (st : session_state) :
  json_loads json_str = inl data ->
  exists out,
    parse json_str st
    = (Ok (if renderable data then data else PyNone), st, out)
    /\ (renderable data = true ->
        exists fields,
          data = PyDict fields
          /\ out = report capitalize (classificacao_tematica st) fields)
    /\ (renderable data = false ->
        exists e shown, out = shown ++ [error_unexpected e]).
Proof.
  intros Hd. rewrite parse_cases, Hd.
  destruct (renderable data) eqn:Hr.
  - destruct data as [| | | | | |fields]; try discriminate.
    rewrite (try_display_renderable capitalize fields st Hr).
    eexists. split; [reflexivity|]. split; [|discriminate].
    intros _. now exists fields.
  - destruct (try_display_not_renderable capitalize data st Hr) as (e & shown & ->).
    eexists. split; [reflexivity|]. split; [discriminate|].
    intros _. now exists e, shown.
Qed.

(** X4: when ["analise"] is absent or falsy (an empty list, [null], [0],
    an empty string, ...) no chart is drawn and the message of l. 191 is
    shown in place of the detail; the record is returned. *)
Theorem no_findings_no_chart (json_str : string)
    (fields : list (string * value)) (st : session_state) :
  json_loads json_str = inl (PyDict fields) ->
  Py.truthy (field_or "analise" (PyList []) fields) = false ->
  parse json_str st
  = (Ok (PyDict fields), st,
     [columns_1_3;
      metric_vies (field_or "porcentagem_vies" (PyStr "N/A") fields);
      markdown_tematica (classificacao_tematica st);
      heading_relatorio;
      info (field_or "relatorio_resumo" (PyStr relatorio_nao_disponivel) fields);
      heading_detalhamento;
      info_nenhum_vies;
      heading_texto_reescrito;
      expander_reescrito;
      code_plaintext
        (field_or "texto_reescrito" (PyStr reescrita_nao_disponivel) fields)]).
Proof.
  intros Hd Hf. rewrite parse_cases, Hd.
  assert (Hr : renderable (PyDict fields) = true).
  { unfold renderable. unfold field_or in Hf.
    destruct (Py.lookup "analise" fields); [|reflexivity]. now rewrite Hf. }
  rewrite (try_display_renderable capitalize fields st Hr).
  unfold report. now rewrite Hf.
Qed.

(** X5: when every entry of the list has a ["tipo"] that is absent or a
    [str] and some entry has none, the chart is drawn, the report goes on up
    to the first such entry, and there [KeyError] ends it: the error of
    l. 216 is the last output and the function returns [None]. *)
Theorem entry_without_tipo_stops_display (json_str : string)
    (fields : list (string * value)) (items : list value) (st : session_state) :
  json_loads json_str = inl (PyDict fields) ->
  Py.lookup "analise" fields = Some (PyList items) ->
  forallb item_labelable items = true ->
  forallb item_renderable items = false ->
  exists counts shown,
    bias_counts items = Ok counts
    /\ parse json_str st
       = (Ok PyNone, st,
          [columns_1_3;
           metric_vies (field_or "porcentagem_vies" (PyStr "N/A") fields);
           markdown_tematica (classificacao_tematica st);
           markdown_rule; heading_distribuicao; altair_chart counts;
           markdown_rule;
           heading_relatorio;
           info (field_or "relatorio_resumo" (PyStr relatorio_nao_disponivel) fields);
           heading_detalhamento]
          ++ shown ++ [error_unexpected (KeyError "tipo")]).
Proof.
  intros Hd Ha Hl Hr. rewrite parse_cases, Hd.
  destruct items as [|item items]; [discriminate|].
  destruct (all_biases_labelable _ [] Hl) as (labels & El).
  destruct (for_each_KeyError capitalize _ st Hl Hr) as (shown & Hf).
  exists (value_counts labels), shown.
  unfold try_display_results, try_except, display_results, field_or, Py.get.
  unfold bias_counts. rewrite Ha. run_steps. cbn [Py.truthy Py.iter negb].
  rewrite El, Hf. split; reflexivity.
Qed.

End Returned.

(** ** The labels of an entry *)

Lemma lstrip_decompose (s : string) :
  exists w, s = w +:+ Str.lstrip s /\ Str.blank w = true.
Proof.
  induction s as [|c s (w & E & Hw)]; [now exists EmptyString|].
  cbn [Str.lstrip]. destruct (Str.isspace c) eqn:Hc.
  - exists (String c w). rewrite append_cons, <- E. split; [reflexivity|].
    cbn [Str.blank]. now rewrite Hc, Hw.
  - now exists EmptyString.
Qed.

Lemma rstrip_decompose (s : string) :
  exists w, s = Str.rstrip s +:+ w /\ Str.blank w = true.
Proof.
  induction s as [|c s (w & E & Hw)]; [now exists EmptyString|].
  cbn [Str.rstrip]. destruct (Str.rstrip s) as [|d r] eqn:Hr.
  - destruct (Str.isspace c) eqn:Hc.
    + rewrite append_nil in E. subst w. exists (String c s).
      split; [reflexivity|]. cbn [Str.blank]. now rewrite Hc, Hw.
    + rewrite append_nil in E. subst w. exists s. now split.
  - exists w. now rewrite append_cons, <- E.
Qed.

(** [strip] takes away white space and nothing else. *)
Lemma strip_decompose (s : string) :
  exists w1 w2,
    s = w1 +:+ (Str.strip s +:+ w2)
    /\ Str.blank w1 = true /\ Str.blank w2 = true.
Proof.
  destruct (lstrip_decompose s) as (w1 & E1 & H1).
  destruct (rstrip_decompose (Str.lstrip s)) as (w2 & E2 & H2).
  exists w1, w2. unfold Str.strip. now rewrite <- E2, <- E1.
Qed.

Lemma rstrip_idempotent (s : string) : Str.rstrip (Str.rstrip s) = Str.rstrip s.
Proof.
  induction s as [|c s IH]; [reflexivity|].
  cbn [Str.rstrip]. destruct (Str.rstrip s) as [|d r] eqn:Hr.
  - destruct (Str.isspace c) eqn:Hc; [reflexivity|].
    cbn [Str.rstrip]. now rewrite Hc.
  - cbn [Str.rstrip] in *. now rewrite IH.
Qed.

Lemma lstrip_rstrip_lstrip (s : string) :
  Str.lstrip (Str.rstrip (Str.lstrip s)) = Str.rstrip (Str.lstrip s).
Proof.
  induction s as [|c s IH]; [reflexivity|].
  cbn [Str.lstrip]. destruct (Str.isspace c) eqn:Hc; [exact IH|].
  cbn [Str.rstrip]. destruct (Str.rstrip s).
  - rewrite Hc. cbn [Str.lstrip]. now rewrite Hc.
  - cbn [Str.lstrip]. now rewrite Hc.
Qed.

Lemma strip_idempotent (s : string) : Str.strip (Str.strip s) = Str.strip s.
Proof.
  unfold Str.strip. now rewrite lstrip_rstrip_lstrip, rstrip_idempotent.
Qed.

Lemma strip_keeps_absence (c : ascii) (s : string) :
  Str.contains c s = false -> Str.contains c (Str.strip s) = false.
Proof.
  destruct (strip_decompose s) as (w1 & w2 & E & _ & _).
  rewrite E at 1. rewrite !contains_append.
  now intros [_ [H _]%orb_false_elim]%orb_false_elim.
Qed.

Lemma split_length (sep : ascii) (s : string) :
  length (Str.split sep s) = S (char_count sep s).
Proof.
  induction s as [|c s IH]; [reflexivity|].
  cbn [Str.split char_count]. destruct (Ascii.eqb c sep).
  - cbn [length]. now rewrite IH.
  - destruct (Str.split sep s) as [|p ps] eqn:E; [now destruct (split_nonempty sep s)|].
    cbn [length] in *. lia.
Qed.

Lemma split_pieces_without_sep (sep : ascii) (s : string) :
  Forall (fun p => Str.contains sep p = false) (Str.split sep s).
Proof.
  induction s as [|c s IH]; [repeat constructor|].
  cbn [Str.split]. destruct (Ascii.eqb c sep) eqn:Hc.
  - constructor; [reflexivity | exact IH].
  - destruct (Str.split sep s) as [|p ps]; [repeat constructor; simpl; now rewrite Hc|].
    inversion IH as [|? ? Hp Hps]; subst.
    constructor; [|exact Hps]. simpl. now rewrite Hc, Hp.
Qed.

(** X6: an entry whose ["tipo"] is a [str] gives one label more than the
    field has commas, and every label is stripped and free of commas. *)
Theorem entry_labels_clean (fields : list (string * value)) (tipo : string) :
  Py.lookup "tipo" fields = Some (PyStr tipo) ->
  exists labels,
    item_labels (PyDict fields) = Ok labels
    /\ length labels = S (char_count "," tipo)
    /\ Forall (fun l => Str.strip l = l /\ Str.contains "," l = false) labels.
Proof.
  intros Ht. exists (map Str.strip (Str.split "," tipo)).
  split; [now apply item_labels_tipo|].
  split; [now rewrite length_map, split_length|].
  apply Forall_map. eapply Forall_impl; [apply split_pieces_without_sep|].
  intros piece Hp. cbn beta. split; [apply strip_idempotent|].
  now apply strip_keeps_absence.
Qed.

(** ** The order of the entries *)

Lemma occurrences_permutation (label : string) (a b : list string) :
  Permutation a b -> occurrences label a = occurrences label b.
Proof.
  induction 1 as [|x a b _ IH|x y a|a b c _ IH1 _ IH2]; cbn [occurrences]; lia.
Qed.

Lemma value_counts_permutation (a b : list string) :
  Permutation a b -> value_counts a = value_counts b.
Proof.
  intros H. apply map_eq. intros label.
  now rewrite !value_counts_row, (occurrences_permutation label a b H).
Qed.

Lemma all_biases_permutation (items items' : list value) (labels : list string) :
  Permutation items items' ->
  all_biases [] items = Ok labels ->
  exists labels', all_biases [] items' = Ok labels' /\ Permutation labels labels'.
Proof.
  intros H. revert labels.
  induction H as [|x a b _ IH|x y a|a b c _ IH1 _ IH2]; intros labels.
  - intros [= <-]. now exists [].
  - rewrite !all_biases_cons. destruct (item_labels x) as [lx|]; [|discriminate].
    destruct (all_biases [] a) as [la|] eqn:Ea; [|discriminate].
    intros [= <-]. destruct (IH la eq_refl) as (lb & -> & Hp).
    exists (lx ++ lb). split; [reflexivity|]. now apply Permutation_app_head.
  - rewrite !all_biases_cons.
    destruct (item_labels y) as [ly|]; [|discriminate].
    destruct (item_labels x) as [lx|]; [|discriminate].
    destruct (all_biases [] a) as [la|]; [|discriminate].
    intros [= <-]. exists (lx ++ ly ++ la). split; [reflexivity|].
    rewrite !app_assoc. apply Permutation_app_tail, Permutation_app_comm.
  - intros Ha. destruct (IH1 labels Ha) as (lb & Hb & Hp1).
    destruct (IH2 lb Hb) as (lc & Hc & Hp2).
    exists lc. split; [exact Hc|]. now transitivity lb.
Qed.

(** X7: the count that the table of the chart gives to each label does not
    depend on the order of the entries (the order of the rows is not part of
    [value_counts] here). *)
Theorem tally_order_irrelevant (items items' : list value)
    (counts : gmap string nat) :
  Permutation items items' ->
  bias_counts items = Ok counts ->
  bias_counts items' = Ok counts.
Proof.
  unfold bias_counts. intros Hp.
  destruct (all_biases [] items) as [labels|] eqn:E; [|discriminate].
  destruct (all_biases_permutation items items' labels Hp E) as (labels' & -> & Hl).
  cbn [mbind result_bind mret result_ret]. intros [= <-].
  now rewrite (value_counts_permutation labels labels' Hl).
Qed.

(** ** The extraction of the text *)

Lemma blank_append (a b : string) :
  Str.blank (a +:+ b) = Str.blank a && Str.blank b.
Proof.
  induction a as [|c a IH]; [reflexivity|].
  rewrite append_cons. cbn [Str.blank]. now rewrite IH, andb_assoc.
Qed.

Lemma strip_blank (s : string) : Str.blank s = true -> Str.strip s = EmptyString.
Proof.
  intros H. unfold Str.strip.
  assert (Str.lstrip s = EmptyString) as ->; [|reflexivity].
  induction s as [|c s IH]; [reflexivity|].
  cbn [Str.blank Str.lstrip] in *. apply andb_prop in H as [-> H]. auto.
Qed.

(** Only a blank text is stripped to nothing. *)
Lemma strip_empty_iff (s : string) :
  Str.strip s = EmptyString <-> Str.blank s = true.
Proof.
  split; [|apply strip_blank].
  intros H. destruct (strip_decompose s) as (w1 & w2 & E & H1 & H2).
  rewrite E, H, append_nil, blank_append. now rewrite H1, H2.
Qed.

Lemma blank_page_texts (pages : list string) :
  Str.blank (page_texts pages) = forallb Str.blank pages.
Proof.
  unfold page_texts.
  assert (H : forall acc,
             Str.blank (fold_left
                          (fun text page =>
                             text +:+ (page +:+ String Re.newline EmptyString))
                          pages acc)
             = Str.blank acc && forallb Str.blank pages).
  { induction pages as [|page pages IH]; intros acc; cbn [fold_left forallb].
    - now rewrite andb_true_r.
    - rewrite IH, !blank_append. cbn [Str.blank].
      change (Str.isspace Re.newline) with true. cbn [andb].
      now rewrite andb_true_r, andb_assoc. }
  apply H.
Qed.

(** X8: [extract_text_from_pdf] never raises and leaves the session state as
    it is; an exception of the PDF library is shown and gives the empty
    text.  The text returned is stripped, and it is empty exactly when the
    library failed or every page is blank. *)
Theorem extraction_outcome (inp : run_input) (uploaded_file : upload)
    (st : session_state) :
  exists text,
    extract_text_from_pdf inp true uploaded_file st
    = (Ok text, st,
       match fitz_pages inp uploaded_file with
       | Ok _ => []
       | Raise e => [error_pdf e]
       end)
    /\ Str.strip text = text
    /\ (text = EmptyString
        <-> match fitz_pages inp uploaded_file with
            | Ok pages => forallb Str.blank pages = true
            | Raise _ => True
            end).
Proof.
  exists (extracted_text inp uploaded_file).
  split; [apply extract_text_from_pdf_run|].
  unfold extracted_text. destruct (fitz_pages inp uploaded_file) as [pages|e].
  - split; [apply strip_idempotent|].
    now rewrite strip_empty_iff, blank_page_texts.
  - now split.
Qed.

(** ** The configuration of the model *)

(** X9: the configuration of l. 30-39 never raises.  Gemini is available
    exactly when the key is present and [genai.configure] returns, and then
    nothing is shown; a missing key shows the message of l. 36, and so does
    a [KeyError] raised by [genai.configure]; any other exception shows the
    message of l. 39. *)
Theorem gemini_configuration (inp : run_input) (st : session_state) :
  exists available out,
    configure_gemini inp st = (Ok available, st, out)
    /\ (available = true
        <-> exists api_key,
              secrets_GEMINI_API_KEY inp = Some api_key
              /\ genai_configure inp api_key = Ok tt)
    /\ (available = true -> out = [])
    /\ (secrets_GEMINI_API_KEY inp = None -> out = [error_key_missing])
    /\ (forall api_key e,
           secrets_GEMINI_API_KEY inp = Some api_key ->
           genai_configure inp api_key = Raise e ->
           out = if is_KeyError e then [error_key_missing] else [error_configure e]).
Proof.
  exists (gemini_available inp), (configure_outputs inp).
  split; [apply configure_gemini_run|].
  unfold gemini_available, configure_outputs.
  destruct (secrets_GEMINI_API_KEY inp) as [api_key|].
  - destruct (genai_configure inp api_key) as [[]|e] eqn:Hc.
    + split; [split; [intros _; now exists api_key | reflexivity]|].
      split; [reflexivity|]. split; [discriminate|].
      intros k e' [= <-]. now rewrite Hc.
    + split; [split; [discriminate | intros (k & [= <-] & Hk); congruence]|].
      split; [discriminate|]. split; [discriminate|].
      intros k e' [= <-]. rewrite Hc. now intros [= <-].
  - split; [split; [discriminate | now intros (k & Hk & _)]|].
    split; [discriminate|]. split; [reflexivity|]. discriminate.
Qed.

(** ** A run of the page, output by output *)

Section Runs.

Variable json_loads : string -> value + string.
Variable capitalize : string -> string.
Variable prompt : string -> string.

Local Abbreviation parse := (parse_and_display_results json_loads capitalize).
Local Abbreviation run := (page json_loads capitalize prompt).
Local Abbreviation shown_by := (analysis_shown json_loads capitalize prompt).

Lemma analysis_shown_report (inp : run_input) (text : string) (st : session_state) :
  Forall (fun o => report_output o = true) (shown_by inp text st).
Proof.
  unfold analysis_shown. destruct (analysis_reply prompt inp text) as [response|];
    [|constructor].
  destruct (String.eqb response EmptyString); [constructor|].
  destruct (parse_record json_loads capitalize response st) as (out & -> & Hout).
  exact Hout.
Qed.

Lemma analisar_outputs (inp : run_input) (text : string) (st : session_state) :
  original_text st = Some text ->
  analisar json_loads capitalize prompt inp (gemini_available inp) st
  = (Ok tt,
     if click_analisar inp
     then with_parsed_data (analysis_record json_loads prompt inp text) st
     else st,
     button_analisar (click_analisar inp)
     :: if click_analisar inp
        then spinner_analisando
             :: gemini_outputs prompt inp text
             ++ shown_by inp text (with_parsed_data PyNone st)
        else []).
Proof.
  intros Ht. unfold analisar, analysis_record, analysis_shown.
  destruct (click_analisar inp); [|reflexivity].
  pose proof (analyze_with_gemini_run prompt inp text (with_parsed_data PyNone st)) as Hg.
  unfold set_parsed_data. run_steps.
  change (original_text (with_parsed_data PyNone st)) with (original_text st).
  rewrite Ht. change (default EmptyString (Some text)) with text. rewrite Hg.
  destruct (analysis_reply prompt inp text) as [response|] eqn:Hr; cbn [text_truthy].
  - change (default EmptyString (Some response)) with response.
    destruct (String.eqb response EmptyString) eqn:He; cbn [negb].
    + now rewrite !app_nil_r.
    + destruct (parse_record json_loads capitalize response (with_parsed_data PyNone st))
        as (out & Hp & _).
      rewrite Hp. cbn -[gemini_outputs]. now rewrite app_nil_r.
  - now rewrite !app_nil_r.
Qed.

(** A run with an upload that has text, output by output. *)
Lemma page_outputs_with_text (inp : run_input) (uploaded_file : upload)
    (st : session_state) :
  fitz_installed inp = true ->
  file_uploader inp = Some uploaded_file ->
  extracted_text inp uploaded_file <> EmptyString ->
  let text := extracted_text inp uploaded_file in
  let st2 := with_original_text (Some text)
               (with_classificacao_tematica (selectbox inp) st) in
  let st3 := if click_analisar inp
             then with_parsed_data (analysis_record json_loads prompt inp text) st2
             else st2 in
  run inp st
  = (Ok tt, download_state inp st3,
     page_head inp
     ++ spinner_extraindo :: extract_outputs inp uploaded_file
     ++ [success_extraido; text_area_original text;
         button_analisar (click_analisar inp)]
     ++ (if click_analisar inp
         then spinner_analisando
              :: gemini_outputs prompt inp text
              ++ shown_by inp text (with_parsed_data PyNone st2)
         else [])
     ++ download_outputs inp st3).
Proof.
  intros Hf Hu Ht text st2 st3.
  unfold page, page_head. rewrite Hf, Hu. cbn [negb].
  pose proof (configure_gemini_run inp st) as Hc.
  pose proof (extract_text_from_pdf_run inp uploaded_file
                (with_classificacao_tematica (selectbox inp) st)) as He.
  pose proof (analisar_outputs inp text st2 eq_refl) as Ha.
  pose proof (download_pdf_run inp st3) as Hd.
  apply String.eqb_neq in Ht.
  unfold set_classificacao_tematica, set_original_text. run_steps.
  rewrite Hc, He. fold text. fold st2.
  change (original_text st2) with (Some text). cbn [text_truthy].
  fold text in Ht. rewrite Ht. cbn [negb]. rewrite Ha. fold st3. rewrite Hd.
  change (default EmptyString (Some text)) with text.
  cbn -[configure_outputs extract_outputs gemini_outputs download_outputs
        download_state analysis_shown].
  rewrite <- !app_assoc. cbn [app]. rewrite ?app_nil_r. reflexivity.
Qed.

(** Solves the side conditions of the counting lemmas. *)
Ltac absent :=
  first [ reflexivity
        | intros ?; reflexivity
        | let o := fresh in intros o; destruct o; (reflexivity || discriminate) ].

(** Counts the outputs of a run segment by segment. *)
Ltac count_all :=
  repeat (rewrite count_app || rewrite count_cons);
  rewrite ?count_page_head, ?count_extract, ?count_gemini by absent.

Lemma count_shown (p : output -> bool) (inp : run_input) (text : string)
    (st : session_state) :
  (forall o, report_output o = true -> p o = false) ->
  count p (shown_by inp text st) = 0.
Proof.
  intros Hp. apply (report_count_none p _ Hp), analysis_shown_report.
Qed.

Lemma Forall_uncounted (p : output -> bool) (P : output -> Prop)
    (out : list output) :
  (forall o, p o = false -> P o) ->
  Forall (fun o => p o = false) out -> Forall P out.
Proof. intros H Hall. eapply Forall_impl; [exact Hall | exact H]. Qed.

Lemma page_head_unlisted (p : output -> bool) (inp : run_input) :
  p set_page_config = false -> p error_key_missing = false ->
  (forall e, p (error_configure e) = false) ->
  p title = false -> p write_intro = false -> p sidebar_header = false ->
  Forall (fun o => p o = false) (page_head inp).
Proof.
  intros H1 H2 H3 H4 H5 H6. unfold page_head, configure_outputs.
  constructor; [exact H1|]. apply Forall_app. split; [|repeat constructor; auto].
  destruct (secrets_GEMINI_API_KEY inp) as [api_key|]; [|repeat constructor; auto].
  destruct (genai_configure inp api_key) as [|e]; [constructor|].
  destruct (is_KeyError e); repeat constructor; auto.
Qed.

Lemma extract_unlisted (p : output -> bool) (inp : run_input) (uploaded_file : upload) :
  (forall e, p (error_pdf e) = false) ->
  Forall (fun o => p o = false) (extract_outputs inp uploaded_file).
Proof.
  intros H. unfold extract_outputs.
  destruct (fitz_pages inp uploaded_file); repeat constructor; auto.
Qed.

Lemma download_unlisted (p : output -> bool) (inp : run_input) (st : session_state) :
  p div_download_open = false -> p markdown_rule = false ->
  p subheader_salvar = false -> p paragraph_salvar = false ->
  (forall b, p (button_download_pdf b) = false) ->
  p div_download_close = false -> p print_css = false -> p print_script = false ->
  Forall (fun o => p o = false) (download_outputs inp st).
Proof.
  intros H1 H2 H3 H4 H5 H6 H7 H8. unfold download_outputs.
  destruct (Py.truthy _); [|constructor]. apply Forall_app. split.
  - repeat constructor; auto.
  - destruct (_ || _); repeat constructor; auto.
Qed.

Lemma shown_unlisted (p : output -> bool) (inp : run_input) (text : string)
    (st : session_state) :
  (forall o, report_output o = true -> p o = false) ->
  Forall (fun o => p o = false) (shown_by inp text st).
Proof.
  intros Hp. eapply Forall_impl; [apply analysis_shown_report | exact Hp].
Qed.

(** X10: a run calls the model at most once: once when the analyze button
    is shown and clicked and Gemini is available, never otherwise; the
    prompt of the call is built on the text extracted in the same run. *)
Theorem model_called_once_on_current_text (inp : run_input) (st : session_state) :
  count is_generate_content (outputs_of (run inp st))
  = (if analisar_activated inp && gemini_available inp then 1 else 0)
  /\ Forall (fun o => forall p, o = generate_content p ->
                       p = prompt (uploaded_text inp))
            (outputs_of (run inp st)).
Proof.
  split; [apply analysis_needs_text|].
  assert (Hno : forall expected out,
                  Forall (fun o => is_generate_content o = false) out ->
                  Forall (fun o => forall p, o = generate_content p ->
                                     p = expected) out).
  { intros expected out. apply (Forall_uncounted is_generate_content).
    intros o Ho p ->. discriminate. }
  unfold uploaded_text.
  destruct (fitz_installed inp) eqn:Hf.
  2:{ rewrite (page_without_fitz json_loads capitalize prompt inp st Hf).
      apply Hno. repeat constructor. }
  destruct (file_uploader inp) as [uploaded_file|] eqn:Hu.
  2:{ rewrite (page_without_upload json_loads capitalize prompt inp st Hf Hu).
      apply Hno, Forall_app. split; [apply page_head_unlisted; absent|].
      repeat constructor. }
  destruct (String.eqb_spec (extracted_text inp uploaded_file) EmptyString) as [Ht|Ht].
  - rewrite (page_with_empty_text json_loads capitalize prompt inp uploaded_file st Hf Hu Ht).
    apply Hno, Forall_app. split; [apply page_head_unlisted; absent|].
    constructor; [reflexivity|]. apply Forall_app.
    split; [apply extract_unlisted; absent | repeat constructor].
  - rewrite (page_outputs_with_text inp uploaded_file st Hf Hu Ht).
    cbn [outputs_of snd]. apply Forall_app.
    split; [apply Hno, page_head_unlisted; absent|].
    constructor; [discriminate|]. apply Forall_app.
    split; [apply Hno, extract_unlisted; absent|]. apply Forall_app.
    split; [apply Hno; repeat constructor|]. apply Forall_app.
    split; [|apply Hno, download_unlisted; absent].
    destruct (click_analisar inp); [|constructor].
    constructor; [discriminate|]. apply Forall_app.
    split; [|apply Hno, shown_unlisted; absent].
    unfold gemini_outputs. destruct (gemini_available inp); [|constructor].
    constructor; [now intros p [= <-]|].
    destruct (model_response inp _); repeat constructor. discriminate.
Qed.

(** X11: when the analyze button is clicked and the analysis gives no text
    (Gemini is not available, the call raises, or the reply is empty), the
    run leaves [None] as the record and shows nothing after the outputs of
    the call: no report, no parse error, no download section. *)
Theorem analysis_without_reply_shows_nothing (inp : run_input)
    (uploaded_file : upload) (st : session_state) :
  fitz_installed inp = true ->
  file_uploader inp = Some uploaded_file ->
  extracted_text inp uploaded_file <> EmptyString ->
  click_analisar inp = true ->
  text_truthy (analysis_reply prompt inp (extracted_text inp uploaded_file)) = false ->
  let text := extracted_text inp uploaded_file in
  run inp st
  = (Ok tt,
     with_parsed_data PyNone
       (with_original_text (Some text)
          (with_classificacao_tematica (selectbox inp) st)),
     page_head inp
     ++ spinner_extraindo :: extract_outputs inp uploaded_file
     ++ [success_extraido; text_area_original text; button_analisar true;
         spinner_analisando]
     ++ gemini_outputs prompt inp text).
Proof.
  intros Hf Hu Ht Hc Hr text.
  rewrite (page_outputs_with_text inp uploaded_file st Hf Hu Ht). fold text.
  rewrite Hc. unfold analysis_record, analysis_shown. fold text in Hr.
  assert (Hrec : match analysis_reply prompt inp text with
                 | Some r => if String.eqb r EmptyString then PyNone
                             else record_of json_loads r
                 | None => PyNone
                 end = PyNone).
  { destruct (analysis_reply prompt inp text) as [r|]; [|reflexivity].
    cbn [text_truthy] in Hr. apply negb_false_iff in Hr. now rewrite Hr. }
  rewrite Hrec.
  assert (Hshown : forall st', match analysis_reply prompt inp text with
                 | Some r => if String.eqb r EmptyString then []
                             else outputs_of (parse r st')
                 | None => []
                 end = []).
  { intros st'. destruct (analysis_reply prompt inp text) as [r|]; [|reflexivity].
    cbn [text_truthy] in Hr. apply negb_false_iff in Hr. now rewrite Hr. }
  rewrite Hshown. unfold download_state, download_outputs.
  cbn [parsed_data with_parsed_data Py.truthy andb].
  rewrite !app_nil_r. reflexivity.
Qed.

Lemma record_of_shape (json_str : string) :
  record_of json_loads json_str = PyNone
  \/ renderable (record_of json_loads json_str) = true.
Proof.
  unfold record_of.
  assert (H : forall data, (if renderable data then data else PyNone) = PyNone
                \/ renderable (if renderable data then data else PyNone) = true).
  { intros data. destruct (renderable data) eqn:Hr; [now right | now left]. }
  destruct (json_loads json_str) as [data|]; [apply H|].
  destruct (Re.search re_DOTALL brace_pattern json_str) as [cleaned|]; [|now left].
  destruct (json_loads cleaned) as [data|]; [apply H | now left].
Qed.

Lemma extracted_text_stripped (inp : run_input) (uploaded_file : upload) :
  Str.strip (extracted_text inp uploaded_file) = extracted_text inp uploaded_file.
Proof.
  unfold extracted_text. destruct (fitz_pages inp uploaded_file); [|reflexivity].
  apply strip_idempotent.
Qed.

(** A run keeps what holds between runs. *)
Lemma page_between_runs (inp : run_input) (st : session_state) :
  between_runs st -> between_runs (state_after (run inp st)).
Proof.
  intros (Hp & Hd & Ht).
  split; [now apply page_resets_flag|].
  destruct (fitz_installed inp) eqn:Hf.
  2:{ rewrite (page_without_fitz json_loads capitalize prompt inp st Hf). now split. }
  destruct (file_uploader inp) as [uploaded_file|] eqn:Hu.
  2:{ rewrite (page_without_upload json_loads capitalize prompt inp st Hf Hu). now split. }
  destruct (String.eqb_spec (extracted_text inp uploaded_file) EmptyString) as [He|He].
  - rewrite (page_with_empty_text json_loads capitalize prompt inp uploaded_file st Hf Hu He).
    now split.
  - rewrite (page_outputs_with_text inp uploaded_file st Hf Hu He).
    cbn [state_after fst snd].
    rewrite parsed_data_download_state, original_text_download_state.
    destruct (click_analisar inp); cbn [parsed_data original_text with_parsed_data
      with_original_text with_classificacao_tematica].
    + split; [|apply extracted_text_stripped].
      unfold analysis_record. destruct (analysis_reply _ _ _) as [r|]; [|now left].
      destruct (String.eqb r EmptyString); [now left | apply record_of_shape].
    + split; [exact Hd | apply extracted_text_stripped].
Qed.

(** X12: in every session, after every run, the print flag is false, the
    record is [None] or a renderable [dict], and the stored text, if any, is
    stripped. *)
Theorem session_between_runs (runs : list run_input) :
  Forall (fun r => between_runs (fst r))
         (session json_loads capitalize prompt runs fresh_session).
Proof.
  assert (H : forall st, between_runs st ->
                Forall (fun r => between_runs (fst r))
                       (session json_loads capitalize prompt runs st)).
  { induction runs as [|inp runs IH]; intros st Hst; [constructor|].
    cbn [session]. pose proof (page_between_runs inp st Hst) as Hnext.
    constructor; [exact Hnext | now apply IH]. }
  apply H. repeat split. now left.
Qed.

(** X13: a run in which the analyze button is not clicked displays nothing
    of the report; this holds for the run that follows a click on the
    download button, in which the print script is emitted. *)
Theorem print_run_shows_no_report (inp : run_input) (st : session_state) :
  click_analisar inp = false ->
  count report_body (outputs_of (run inp st)) = 0
  /\ (analisar_reached inp = true ->
      Py.truthy (parsed_data st) = true ->
      click_download_pdf inp = true ->
      count is_print_script (outputs_of (run inp st)) = 1).
Proof.
  intros Hc. unfold analisar_reached, uploaded_text.
  destruct (fitz_installed inp) eqn:Hf.
  2:{ rewrite (page_without_fitz json_loads capitalize prompt inp st Hf).
      split; [reflexivity | discriminate]. }
  destruct (file_uploader inp) as [uploaded_file|] eqn:Hu.
  2:{ rewrite (page_without_upload json_loads capitalize prompt inp st Hf Hu).
      cbn [outputs_of snd]. count_all. split; [reflexivity | discriminate]. }
  destruct (String.eqb_spec (extracted_text inp uploaded_file) EmptyString) as [Ht|Ht].
  - rewrite (page_with_empty_text json_loads capitalize prompt inp uploaded_file st Hf Hu Ht).
    cbn [outputs_of snd]. count_all. split; [reflexivity | discriminate].
  - rewrite (page_outputs_with_text inp uploaded_file st Hf Hu Ht).
    cbn [outputs_of snd]. rewrite Hc. split.
    + count_all. rewrite count_download by reflexivity.
      destruct (Py.truthy _); [|reflexivity].
      destruct (click_download_pdf inp); [reflexivity|].
      now destruct (_ || _).
    + intros _ Hd Hk. count_all. rewrite count_download by reflexivity.
      cbn [parsed_data with_original_text with_classificacao_tematica].
      now rewrite Hd, Hk.
Qed.

(** X14: the download button is shown exactly when the run comes to the
    analyze button with a text and the record held at l. 276 is truthy. *)
Theorem download_offered_for_truthy_record (inp : run_input) (st : session_state) :
  count is_download_button (outputs_of (run inp st))
  = (if download_reached json_loads prompt inp st then 1 else 0).
Proof.
  unfold download_reached, parsed_data_at_download, analisar_reached, uploaded_text.
  destruct (fitz_installed inp) eqn:Hf.
  2:{ now rewrite (page_without_fitz json_loads capitalize prompt inp st Hf). }
  destruct (file_uploader inp) as [uploaded_file|] eqn:Hu.
  2:{ rewrite (page_without_upload json_loads capitalize prompt inp st Hf Hu).
      cbn [outputs_of snd]. now count_all. }
  destruct (String.eqb_spec (extracted_text inp uploaded_file) EmptyString) as [Ht|Ht].
  - rewrite (page_with_empty_text json_loads capitalize prompt inp uploaded_file st Hf Hu Ht).
    cbn [outputs_of snd]. now count_all.
  - rewrite (page_outputs_with_text inp uploaded_file st Hf Hu Ht).
    cbn [outputs_of snd andb negb]. count_all. rewrite count_download by reflexivity.
    destruct (click_analisar inp).
    + count_all. rewrite count_shown by absent.
      cbn [parsed_data with_parsed_data]. rewrite andb_false_r.
      destruct (Py.truthy _); [|reflexivity]. now destruct (_ || _).
    + cbn [parsed_data with_original_text with_classificacao_tematica].
      destruct (Py.truthy _); [|reflexivity]. now destruct (_ || _).
Qed.

End Runs.

(** ** The classification in the report *)

Lemma emits_ret {A} (P : output -> Prop) (a : A) (st : session_state) :
  emits_at P (mret a) st.
Proof. exists (Ok a), []. split; [reflexivity | constructor]. Qed.

Lemma emits_lift {A} (P : output -> Prop) (r : result A) (st : session_state) :
  emits_at P (lift r) st.
Proof. exists r, []. split; [reflexivity | constructor]. Qed.

Lemma emits_emit (P : output -> Prop) (o : output) (st : session_state) :
  P o -> emits_at P (emit o) st.
Proof. intros Ho. exists (Ok tt), [o]. split; [reflexivity | now constructor]. Qed.

Lemma emits_bind {A B} (P : output -> Prop) (c : M A) (k : A -> M B)
    (st : session_state) :
  emits_at P c st -> (forall a, emits_at P (k a) st) -> emits_at P (c ≫= k) st.
Proof.
  intros (r & out & Hc & Hout) Hk. unfold emits_at. rewrite bind_run, Hc.
  destruct r as [a|e].
  - destruct (Hk a) as (r' & out' & -> & Hout').
    exists r', (out ++ out'). split; [reflexivity|]. apply Forall_app. now split.
  - now exists (Raise e), out.
Qed.

(** After [get_state] the script goes on with the state it runs on. *)
Lemma emits_get_state {B} (P : output -> Prop) (k : session_state -> M B)
    (st : session_state) :
  emits_at P (k st) st -> emits_at P (get_state ≫= k) st.
Proof.
  intros (r & out & Hk & Hout). unfold emits_at. rewrite bind_run.
  cbn [get_state]. rewrite Hk. now exists r, out.
Qed.

Lemma emits_try_except {A} (P : output -> Prop) (body : M A)
    (catches : exn -> bool) (handler : exn -> M A) (st : session_state) :
  emits_at P body st -> (forall e, emits_at P (handler e) st) ->
  emits_at P (try_except body catches handler) st.
Proof.
  intros (r & out & Hb & Hout) Hh. unfold emits_at, try_except. rewrite Hb.
  destruct r as [a|e]; [now exists (Ok a), out|].
  destruct (catches e); [|now exists (Raise e), out].
  destruct (Hh e) as (r' & out' & -> & Hout').
  exists r', (out ++ out'). split; [reflexivity|]. apply Forall_app. now split.
Qed.

Lemma emits_for_each {A} (P : output -> Prop) (xs : list A)
    (body : A -> M unit) (st : session_state) :
  (forall x, emits_at P (body x) st) -> emits_at P (for_each xs body) st.
Proof.
  intros Hb. induction xs as [|x xs IH]; cbn [for_each].
  - apply emits_ret.
  - apply emits_bind; [apply Hb | intros _; exact IH].
Qed.

(** Breaks a sequence of steps down to its calls; an output that shows a
    classification has to show that of the state. *)
Ltac emits_steps :=
  repeat first
    [ apply emits_ret
    | apply emits_lift
    | apply emits_emit; intros ? [=]; congruence
    | apply emits_emit; intros ? [=]
    | apply emits_get_state; cbn beta
    | apply emits_bind; [|intros ?]
    | apply emits_for_each; intros ?
    | match goal with |- emits_at _ (if ?b then _ else _) _ => destruct b end ].

(** What a piece of the script emits first. *)
Lemma begins_any {A} (c : M A) (st : session_state) :
  exists r st' out, c st = (r, st', [] ++ out).
Proof. destruct (c st) as [[r st'] out]. now exists r, st', out. Qed.

Lemma begins_emit {B} (o : output) (k : unit -> M B) (st : session_state)
    (first : list output) :
  (exists r st' out, k tt st = (r, st', first ++ out)) ->
  exists r st' out, (emit o ≫= k) st = (r, st', (o :: first) ++ out).
Proof.
  intros (r & st' & out & Hk). rewrite bind_run. cbn [emit]. rewrite Hk.
  now exists r, st', out.
Qed.

Lemma begins_lift {A B} (a : A) (k : A -> M B) (st : session_state)
    (first : list output) :
  (exists r st' out, k a st = (r, st', first ++ out)) ->
  exists r st' out, (lift (Ok a) ≫= k) st = (r, st', first ++ out).
Proof.
  intros (r & st' & out & Hk). rewrite bind_run. cbn [lift]. rewrite Hk.
  now exists r, st', out.
Qed.

Lemma begins_get_state {B} (k : session_state -> M B) (st : session_state)
    (first : list output) :
  (exists r st' out, k st st = (r, st', first ++ out)) ->
  exists r st' out, (get_state ≫= k) st = (r, st', first ++ out).
Proof.
  intros (r & st' & out & Hk). rewrite bind_run. cbn [get_state]. rewrite Hk.
  now exists r, st', out.
Qed.

Section Tematica.

Variable json_loads : string -> value + string.
Variable capitalize : string -> string.
Variable prompt : string -> string.

Local Abbreviation parse := (parse_and_display_results json_loads capitalize).
Local Abbreviation run := (page json_loads capitalize prompt).

Lemma display_shows_tematica (data : value) (st : session_state) :
  emits_at (shows_tematica_of st) (display_results capitalize data) st.
Proof. unfold display_results, display_item. emits_steps. Qed.

Lemma parse_shows_tematica (json_str : string) (st : session_state) :
  Forall (shows_tematica_of st) (outputs_of (parse json_str st)).
Proof.
  assert (H : emits_at (shows_tematica_of st) (parse json_str) st).
  { unfold parse_and_display_results, parse_and_display_results_with,
      decode_response, decode_response_with, try_display_results.
    apply emits_bind.
    - apply emits_try_except; [emits_steps|]. intros e.
      apply emits_bind; [emits_steps|]. intros _.
      destruct (Re.search _ _ _); [|emits_steps].
      apply emits_try_except; [emits_steps|]. intros e2. emits_steps.
    - intros [data|r]; [|apply emits_ret].
      apply emits_try_except; [apply display_shows_tematica|].
      intros e. emits_steps. }
  destruct H as (r & out & -> & Hout). exact Hout.
Qed.

(** No output of a run shows another classification than the selected one. *)
Lemma only_selected_classification (inp : run_input) (st : session_state) :
  Forall (fun o => forall t, o = markdown_tematica t -> t = selectbox inp)
         (outputs_of (run inp st)).
Proof.
  assert (Hno : forall out,
             Forall (fun o => match o with markdown_tematica _ => false | _ => true end
                              = true) out ->
             Forall (fun o => forall t, o = markdown_tematica t -> t = selectbox inp)
                    out).
  { intros out Hall. eapply Forall_impl; [exact Hall|].
    intros o Ho t ->. discriminate. }
  assert (Hhead : Forall (fun o => match o with markdown_tematica _ => false | _ => true end
                              = true) (page_head inp)).
  { unfold page_head, configure_outputs. constructor; [reflexivity|].
    apply Forall_app. split; [|repeat constructor].
    destruct (secrets_GEMINI_API_KEY inp) as [api_key|]; [|repeat constructor].
    destruct (genai_configure inp api_key) as [|e]; [constructor|].
    destruct (is_KeyError e); repeat constructor. }
  assert (Hext : forall f, Forall (fun o => match o with markdown_tematica _ => false
                                            | _ => true end = true)
                             (extract_outputs inp f)).
  { intros f. unfold extract_outputs. destruct (fitz_pages inp f); repeat constructor. }
  destruct (fitz_installed inp) eqn:Hf.
  2:{ rewrite (page_without_fitz json_loads capitalize prompt inp st Hf).
      apply Hno. repeat constructor. }
  destruct (file_uploader inp) as [uploaded_file|] eqn:Hu.
  2:{ rewrite (page_without_upload json_loads capitalize prompt inp st Hf Hu).
      apply Hno, Forall_app. split; [exact Hhead | repeat constructor]. }
  destruct (String.eqb_spec (extracted_text inp uploaded_file) EmptyString) as [Ht|Ht].
  - rewrite (page_with_empty_text json_loads capitalize prompt inp uploaded_file st Hf Hu Ht).
    apply Hno, Forall_app. split; [exact Hhead|].
    constructor; [reflexivity|]. apply Forall_app. split; [apply Hext | repeat constructor].
  - rewrite (page_outputs_with_text json_loads capitalize prompt inp uploaded_file st Hf Hu Ht).
    cbn [outputs_of snd]. apply Forall_app. split; [apply Hno, Hhead|].
    constructor; [discriminate|]. apply Forall_app. split; [apply Hno, Hext|].
    apply Forall_app. split; [apply Hno; repeat constructor|].
    apply Forall_app. split.
    + destruct (click_analisar inp); [|constructor].
      constructor; [discriminate|]. apply Forall_app. split.
      * apply Hno. unfold gemini_outputs. destruct (gemini_available inp); [|constructor].
        constructor; [reflexivity|]. destruct (model_response inp _); repeat constructor.
      * unfold analysis_shown. destruct (analysis_reply _ _ _) as [r|]; [|constructor].
        destruct (String.eqb r EmptyString); [constructor|].
        exact (parse_shows_tematica r
                 (with_parsed_data PyNone
                    (with_original_text (Some (extracted_text inp uploaded_file))
                       (with_classificacao_tematica (selectbox inp) st)))).
    + apply Hno. unfold download_outputs. destruct (Py.truthy _); [|constructor].
      apply Forall_app. split; [repeat constructor|].
      destruct (_ || _); repeat constructor.
Qed.


(** The display of a [dict] begins with the two columns. *)
Lemma display_begins (fields : list (string * value)) (st : session_state) :
  exists r st' out,
    display_results capitalize (PyDict fields) st
    = (r, st',
       columns_1_3
       :: metric_vies (field_or "porcentagem_vies" (PyStr "N/A") fields)
       :: markdown_tematica (classificacao_tematica st) :: out).
Proof.
  unfold display_results, field_or.
  apply (begins_emit _ _ _ [_; _]). cbn [Py.get]. apply (begins_lift _ _ _ [_; _]).
  apply (begins_emit _ _ _ [_]). apply (begins_get_state _ _ [_]). cbn beta.
  apply (begins_emit _ _ _ []). apply begins_any.
Qed.

Lemma parse_dict_shows_tematica (json_str : string)
    (fields : list (string * value)) (st : session_state) :
  json_loads json_str = inl (PyDict fields) ->
  In (markdown_tematica (classificacao_tematica st))
     (outputs_of (parse json_str st)).
Proof.
  intros Hd. rewrite parse_cases, Hd. unfold try_display_results, try_except.
  destruct (display_begins fields st) as (r & st' & out & ->).
  destruct r as [a|e]; cbn [is_Exception].
  - cbn. auto.
  - destruct ((emit (error_unexpected e) ;; mret PyNone) st') as [[r2 st2] out2].
    cbn. auto.
Qed.

(** X15: the classification shown in the report is the one selected in
    the same run: the run of an analysis whose reply decodes to a [dict]
    shows the selected classification, and no run shows another one. *)
Theorem report_shows_selected_classification (inp : run_input)
    (uploaded_file : upload) (response : string)
    (fields : list (string * value)) (st : session_state) :
  fitz_installed inp = true ->
  file_uploader inp = Some uploaded_file ->
  extracted_text inp uploaded_file <> EmptyString ->
  click_analisar inp = true ->
  analysis_reply prompt inp (extracted_text inp uploaded_file) = Some response ->
  response <> EmptyString ->
  json_loads response = inl (PyDict fields) ->
  In (markdown_tematica (selectbox inp)) (outputs_of (run inp st))
  /\ Forall (fun o => forall t, o = markdown_tematica t -> t = selectbox inp)
            (outputs_of (run inp st)).
Proof.
  intros Hf Hu Ht Hc Hr Hne Hd. split; [|apply only_selected_classification].
  rewrite (page_outputs_with_text json_loads capitalize prompt inp uploaded_file st Hf Hu Ht).
  cbn [outputs_of snd]. rewrite Hc. unfold analysis_shown. rewrite Hr.
  apply String.eqb_neq in Hne. rewrite Hne.
  apply in_or_app; right. apply in_cons. apply in_or_app; right.
  apply in_or_app; right. apply in_or_app; left. apply in_cons.
  apply in_or_app; right.
  exact (parse_dict_shows_tematica response fields
           (with_parsed_data PyNone
              (with_original_text (Some (extracted_text inp uploaded_file))
                 (with_classificacao_tematica (selectbox inp) st))) Hd).
Qed.

End Tematica.

(** ** The further properties on concrete responses and runs *)

Lemma non_dict_response_returns_none_witness :
  Json.loads "[1, 2]" = inl (PyList [PyInt 1; PyInt 2])
  /\ is_dict (PyList [PyInt 1; PyInt 2]) = false
  /\ parse_and_display_results Json.loads AsciiCase.capitalize "[1, 2]" fresh_session
     = (Ok PyNone, fresh_session,
        [columns_1_3;
         error_unexpected (AttributeError (PyList [PyInt 1; PyInt 2]) "get")]).
Proof.
  split; [vm_compute; reflexivity|]. split; [reflexivity|].
  apply (non_dict_response_returns_none Json.loads AsciiCase.capitalize "[1, 2]"
           (PyList [PyInt 1; PyInt 2]) fresh_session);
    [vm_compute; reflexivity | reflexivity].
Defined.

Lemma record_returned_iff_displayed_witness :
  Json.loads missing_tipo_response = inl missing_tipo_record
  /\ renderable missing_tipo_record = false
  /\ exists out,
       parse_and_display_results Json.loads AsciiCase.capitalize
         missing_tipo_response fresh_session
       = (Ok PyNone, fresh_session, out).
Proof.
  split; [vm_compute; reflexivity|]. split; [reflexivity|].
  destruct (record_returned_iff_displayed Json.loads AsciiCase.capitalize
              missing_tipo_response missing_tipo_record fresh_session
              ltac:(vm_compute; reflexivity))
    as (out & Hrun & _).
  exists out. exact Hrun.
Defined.

Lemma no_findings_no_chart_witness :
  Json.loads ("{" +:+ json_member "analise" "null" +:+ "}")
  = inl (PyDict [("analise", PyNone)])
  /\ Py.truthy (field_or "analise" (PyList []) [("analise", PyNone)]) = false
  /\ count is_altair_chart
       (outputs_of (parse_and_display_results Json.loads AsciiCase.capitalize
                      ("{" +:+ json_member "analise" "null" +:+ "}") fresh_session))
     = 0.
Proof.
  split; [vm_compute; reflexivity|]. split; [reflexivity|].
  rewrite (no_findings_no_chart Json.loads AsciiCase.capitalize
             ("{" +:+ json_member "analise" "null" +:+ "}")
             [("analise", PyNone)] fresh_session
             ltac:(vm_compute; reflexivity) eq_refl).
  reflexivity.
Defined.

Lemma entry_without_tipo_stops_display_witness :
  Json.loads missing_tipo_response
  = inl (PyDict [("analise", PyList [PyDict [("trecho", PyStr "x")]])])
  /\ forallb item_labelable [PyDict [("trecho", PyStr "x")]] = true
  /\ forallb item_renderable [PyDict [("trecho", PyStr "x")]] = false
  /\ result_of (parse_and_display_results Json.loads AsciiCase.capitalize
                  missing_tipo_response fresh_session)
     = Ok PyNone.
Proof.
  split; [vm_compute; reflexivity|]. split; [reflexivity|]. split; [reflexivity|].
  destruct (entry_without_tipo_stops_display Json.loads AsciiCase.capitalize
              missing_tipo_response
              [("analise", PyList [PyDict [("trecho", PyStr "x")]])]
              [PyDict [("trecho", PyStr "x")]] fresh_session
              ltac:(vm_compute; reflexivity) eq_refl eq_refl eq_refl)
    as (counts & shown & _ & Hrun).
  now rewrite Hrun.
Defined.

Lemma entry_labels_clean_witness :
  Py.lookup "tipo" [("tipo", PyStr " gender , moral ")]
  = Some (PyStr " gender , moral ")
  /\ exists labels,
       item_labels (PyDict [("tipo", PyStr " gender , moral ")]) = Ok labels
       /\ length labels = 2
       /\ Forall (fun l => Str.strip l = l /\ Str.contains "," l = false) labels.
Proof.
  split; [reflexivity|].
  exact (entry_labels_clean [("tipo", PyStr " gender , moral ")]
           " gender , moral " eq_refl).
Defined.

Lemma tally_order_irrelevant_witness :
  Permutation [entry_gender_moral; entry_racial] [entry_racial; entry_gender_moral]
  /\ bias_counts [entry_gender_moral; entry_racial]
     = Ok (value_counts ["gender"; "moral"; "racial"])
  /\ bias_counts [entry_racial; entry_gender_moral]
     = Ok (value_counts ["gender"; "moral"; "racial"]).
Proof.
  split; [apply perm_swap|]. split; [reflexivity|].
  apply (tally_order_irrelevant [entry_gender_moral; entry_racial]
           [entry_racial; entry_gender_moral]);
    [apply perm_swap | reflexivity].
Defined.

Lemma analysis_without_reply_shows_nothing_witness :
  fitz_installed failing_call_run = true
  /\ file_uploader failing_call_run = Some "%PDF-1.7"
  /\ extracted_text failing_call_run "%PDF-1.7" <> EmptyString
  /\ click_analisar failing_call_run = true
  /\ text_truthy (analysis_reply example_prompt failing_call_run
                    (extracted_text failing_call_run "%PDF-1.7")) = false
  /\ parsed_data (state_after (page Json.loads AsciiCase.capitalize example_prompt
                                 failing_call_run session_with_record)) = PyNone
  /\ count report_body
       (outputs_of (page Json.loads AsciiCase.capitalize example_prompt
                      failing_call_run session_with_record)) = 0.
Proof.
  split; [reflexivity|]. split; [reflexivity|].
  split; [vm_compute; discriminate|]. split; [reflexivity|]. split; [reflexivity|].
  rewrite (analysis_without_reply_shows_nothing Json.loads AsciiCase.capitalize
             example_prompt failing_call_run "%PDF-1.7" session_with_record
             eq_refl eq_refl ltac:(vm_compute; discriminate) eq_refl eq_refl).
  split; reflexivity.
Defined.

Lemma print_run_shows_no_report_witness :
  click_analisar download_click_run = false
  /\ count report_body
       (outputs_of (page Json.loads AsciiCase.capitalize example_prompt
                      download_click_run session_with_record)) = 0
  /\ count is_print_script
       (outputs_of (page Json.loads AsciiCase.capitalize example_prompt
                      download_click_run session_with_record)) = 1.
Proof.
  split; [reflexivity|].
  destruct (print_run_shows_no_report Json.loads AsciiCase.capitalize
              example_prompt download_click_run session_with_record eq_refl)
    as (Hreport & Hprint).
  split; [exact Hreport|]. apply Hprint; reflexivity.
Defined.

Lemma report_shows_selected_classification_witness :
  fitz_installed analysis_click_run = true
  /\ file_uploader analysis_click_run = Some "%PDF-1.7"
  /\ extracted_text analysis_click_run "%PDF-1.7" <> EmptyString
  /\ click_analisar analysis_click_run = true
  /\ analysis_reply example_prompt analysis_click_run
       (extracted_text analysis_click_run "%PDF-1.7") = Some conforming_response
  /\ conforming_response <> EmptyString
  /\ Json.loads conforming_response = inl conforming_record
  /\ In (markdown_tematica Familia)
        (outputs_of (page Json.loads AsciiCase.capitalize example_prompt
                       analysis_click_run fresh_session)).
Proof.
  split; [reflexivity|]. split; [reflexivity|].
  split; [vm_compute; discriminate|]. split; [reflexivity|].
  split; [reflexivity|]. split; [vm_compute; discriminate|].
  split; [vm_compute; reflexivity|].
  apply (report_shows_selected_classification Json.loads AsciiCase.capitalize
           example_prompt analysis_click_run "%PDF-1.7" conforming_response
           match conforming_record with PyDict fields => fields | _ => [] end
           fresh_session eq_refl eq_refl ltac:(vm_compute; discriminate)
           eq_refl eq_refl ltac:(vm_compute; discriminate)
           ltac:(vm_compute; reflexivity)).
Defined.
